(** * RGB-D semantic sampling: [camera.Frame] and [tools.Matcher]

    A shallow embedding of [Code/camera/Frame.py] and [Code/tools/Matcher.py]
    and the properties of the descriptor matcher: Lowe's ratio test, the
    exactly-two-candidates guard, the swallowed [ValueError] of the filter,
    the size pre-condition and the slicing of [draw_matches].

    Python [float] is IEEE binary64, which is what [PrimFloat] computes with,
    so [m.distance < filter_test * n.distance] is embedded as
    [ltb (distance m) (mul filter_test (distance n))] with no idealisation. *)

From Stdlib Require Import Floats.PrimFloat ZArith List String Ascii Bool Lia.
Import ListNotations.

Set Warnings "-inexact-float".
Set Implicit Arguments.

(* ------------------------------------------------------------------ *)
(** * The Python runtime: exceptions, console output, files on disk     *)
(* ------------------------------------------------------------------ *)

Module Py.

(** The exceptions the two modules can meet. *)
Inductive exn : Set :=
| ValueError
| AttributeError
| AssertionError
| FileNotFoundError
| cv2_error.

Inductive outcome (A : Type) : Type :=
| Return (a : A)
| Raise (e : exn).
Arguments Return {A} a.
Arguments Raise {A} e.

(** What an image file decodes to, as far as it matters here: the pixel
    dimensions as stored, and whether the file carries an EXIF orientation
    that asks for a quarter turn (which some loaders apply and some do
    not). *)
Record picture : Set :=
  { pic_width : Z; pic_height : Z; pic_quarter_turn : bool }.

(** The part of the machine the code can observe or change: the files on
    disk, the lines printed so far, and the paths handed to an image
    loader so far (oldest first). *)
Record world : Type :=
  { files : string -> option picture;
    stdout : list string;
    loaded : list string }.

(** A computation runs in a world and leaves a world behind, also when it
    raises: what was printed before the exception stays printed. *)
Definition M (A : Type) : Type := world -> outcome A * world.

Definition ret {A} (a : A) : M A := fun w => (Return a, w).

Definition bind {A B} (c : M A) (k : A -> M B) : M B :=
  fun w => match c w with
           | (Return a, w') => k a w'
           | (Raise e, w') => (Raise e, w')
           end.

Definition raise {A} (e : exn) : M A := fun w => (Raise e, w).

Definition lift {A} (o : outcome A) : M A := fun w => (o, w).

(** [try: body except e: handler]; any other exception propagates. *)
Definition exn_eqb (a b : exn) : bool :=
  match a, b with
  | ValueError, ValueError
  | AttributeError, AttributeError
  | AssertionError, AssertionError
  | FileNotFoundError, FileNotFoundError
  | cv2_error, cv2_error => true
  | _, _ => false
  end.

Definition try_except {A} (body : M A) (e : exn) (handler : M A) : M A :=
  fun w => match body w with
           | (Return a, w') => (Return a, w')
           | (Raise e', w') => if exn_eqb e' e then handler w' else (Raise e', w')
           end.

(** The world once one more line is on the console. *)
Definition printed (w : world) (line : string) : world :=
  {| files := files w; stdout := stdout w ++ [line]; loaded := loaded w |}.

(** The world once one more path went to an image loader. *)
Definition having_loaded (w : world) (path : string) : world :=
  {| files := files w; stdout := stdout w; loaded := loaded w ++ [path] |}.

Definition print (line : string) : M unit :=
  fun w => (Return tt, printed w line).

(** Every image loader goes through this: the path is recorded, and the
    decoded picture (if the file is there) is handed back. *)
Definition load (path : string) : M (option picture) :=
  fun w => (Return (files w path), having_loaded w path).

(** [assert b] *)
Definition assert (b : bool) : M unit :=
  if b then ret tt else raise AssertionError.

(** [a[:stop]] on a list. *)
Definition slice_to {A} (a : list A) (stop : Z) : list A :=
  let n := Z.of_nat (List.length a) in
  let stop' := if (stop <? 0)%Z then Z.max 0 (stop + n) else Z.min stop n in
  firstn (Z.to_nat stop') a.

(** [a, b = x]: unpacking a sequence into exactly two targets. *)
Definition unpack2 {A} (x : list A) : M (A * A) :=
  match x with
  | [a; b] => ret (a, b)
  | _ => raise ValueError
  end.

(** The ANSI escape character, ['\033']. *)
Definition esc : string := String (ascii_of_nat 27) EmptyString.

End Py.

Declare Scope py_scope.
Delimit Scope py_scope with py.
Notation "x <- c ;; k" := (Py.bind c (fun x => k))
  (at level 61, c at next level, right associativity) : py_scope.
Notation "' pat <- c ;; k" := (Py.bind c (fun x => match x with pat => k end))
  (at level 61, pat pattern, c at next level, right associativity) : py_scope.
Notation "c ;;; k" := (Py.bind c (fun _ => k))
  (at level 61, right associativity) : py_scope.
Open Scope py_scope.
Open Scope string_scope.

(* ------------------------------------------------------------------ *)
(** * The three image libraries, as far as the code relies on them      *)
(* ------------------------------------------------------------------ *)

(** A match record of OpenCV ([cv2.DMatch]). *)
Record DMatch : Set :=
  { queryIdx : Z; trainIdx : Z; imgIdx : Z; distance : float }.

(** A detected key point ([cv2.KeyPoint]): location, scale, orientation. *)
Record KeyPoint : Set :=
  { pt_x : float; pt_y : float; size : float; angle : float }.

(** A descriptor array: one row of numbers per key point. *)
Definition descriptors : Set := list (list Z).

Module PIL.

(** A PIL image; [size] is [(width, height)]. *)
Record Image : Set := { im_size : Z * Z }.

(** [Image.open(path)]: raises when the file is not there. *)
Definition open (path : string) : Py.M Image :=
  p <- Py.load path ;;
  match p with
  | Some pic => Py.ret {| im_size := (Py.pic_width pic, Py.pic_height pic) |}
  | None => Py.raise Py.FileNotFoundError
  end.

End PIL.

Module o3d.

Record Image : Set := { o3d_width : Z; o3d_height : Z }.

(** The warning Open3D logs, on Python's standard output, when it cannot
    read the image at a path; the wording differs between releases. *)
Class Logger : Type :=
  { read_failed : string -> string }.

(** [o3d.io.read_image(path)]: when the file cannot be read, the warning is
    logged and an empty image comes back; nothing is raised. *)
Definition read_image {L : Logger} (path : string) : Py.M Image :=
  p <- Py.load path ;;
  match p with
  | Some pic => Py.ret {| o3d_width := Py.pic_width pic; o3d_height := Py.pic_height pic |}
  | None =>
      Py.print (read_failed path) ;;;
      Py.ret {| o3d_width := 0; o3d_height := 0 |}
  end.

End o3d.

Module cv2.

(** An OpenCV image: its columns and rows, and the match links drawn on it
    (none on an image that was just read). *)
Record Mat : Set := { cols : Z; rows : Z; links : list DMatch }.

(** The image OpenCV decodes from a file: the EXIF orientation is applied,
    so a quarter turn swaps columns and rows. *)
Definition decoded (pic : Py.picture) : Mat :=
  if Py.pic_quarter_turn pic
  then {| cols := Py.pic_height pic; rows := Py.pic_width pic; links := [] |}
  else {| cols := Py.pic_width pic; rows := Py.pic_height pic; links := [] |}.

(** [cv2.imread(path)]: [None] when the file cannot be read, no exception. *)
Definition imread (path : string) : Py.M (option Mat) :=
  p <- Py.load path ;;
  match p with
  | Some pic => Py.ret (Some (decoded pic))
  | None => Py.ret None
  end.

(** The engine [cv2.FlannBasedMatcher(indexParams, searchParams)] builds:
    the two parameter dictionaries it was given. *)
Record FlannBasedMatcher : Set :=
  { indexParams : list (string * Z);
    searchParams : list (string * Z) }.

(** The approximate nearest-neighbour search itself is OpenCV's; the code
    only consumes its answer: per query descriptor, in query order, the
    list of the (at most [k]) candidates found, best first. *)
Class FlannEngine : Type :=
  { knnMatch : FlannBasedMatcher -> option descriptors -> option descriptors -> Z ->
               Py.outcome (list (list DMatch)) }.

(** The keyword arguments [draw_matches] passes to [cv2.drawMatches]. *)
Record draw_params : Set :=
  { matchColor : Z;
    singlePointColor : option Z;
    matchesMask : option (list bool);
    flags : Z }.

(** Which of the given matches get a link: all of them without a mask,
    the masked-in ones otherwise. *)
Fixpoint masked (ms : list DMatch) (mask : list bool) : list DMatch :=
  match ms, mask with
  | m :: ms', b :: mask' => if b then m :: masked ms' mask' else masked ms' mask'
  | _, _ => []
  end.

Definition in_range (n : nat) (i : Z) : bool :=
  ((0 <=? i) && (i <? Z.of_nat n))%Z.

(** A key-point list as OpenCV's binding reads it: [None] is the empty
    list. *)
Definition key_point_list (keypoints : option (list KeyPoint)) : list KeyPoint :=
  match keypoints with
  | Some k => k
  | None => []
  end.

(** [cv2.drawMatches(img1, keypoints1, img2, keypoints2, matches1to2, None,
    **params)]: the two images side by side, one link per (masked-in)
    match. OpenCV rejects a missing image and a match whose indices point
    outside the key-point lists. *)
Definition drawMatches (img1 : option Mat) (keypoints1 : option (list KeyPoint))
    (img2 : option Mat) (keypoints2 : option (list KeyPoint))
    (matches1to2 : list DMatch) (params : draw_params) : Py.M Mat :=
  let k1 := key_point_list keypoints1 in
  let k2 := key_point_list keypoints2 in
  match img1, img2 with
  | Some a, Some b =>
      if forallb (fun m => in_range (List.length k1) (queryIdx m)
                           && in_range (List.length k2) (trainIdx m)) matches1to2
      then Py.ret {| cols := cols a + cols b;
                     rows := Z.max (rows a) (rows b);
                     links := match matchesMask params with
                              | None => matches1to2
                              | Some mask => masked matches1to2 mask
                              end |}
      else Py.raise Py.cv2_error
  | _, _ => Py.raise Py.cv2_error
  end.

(** [cv2.resize(src, (width, height))]: the picture scaled to the given
    size; an empty target size is rejected. *)
Definition resize (src : Mat) (dsize : Z * Z) : Py.M Mat :=
  let '(width, height) := dsize in
  if ((0 <? width) && (0 <? height))%Z
  then Py.ret {| cols := width; rows := height; links := links src |}
  else Py.raise Py.cv2_error.

End cv2.

(* ------------------------------------------------------------------ *)
(** * [camera/Frame.py]                                                 *)
(* ------------------------------------------------------------------ *)

Module Frame.

Record t : Set :=
  { color_path : string;
    depth_path : string;
    key_points : option (list KeyPoint);
    descriptors : option descriptors }.

(** [Frame(color_path, depth_path)] *)
Definition __init__ (color_path depth_path : string) : t :=
  {| color_path := color_path;
     depth_path := depth_path;
     key_points := None;
     descriptors := None |}.

(** What the three getters hand back: the tuple [(color, depth)], one
    image, or nothing at all (Python's [None], when no branch returns). *)
Inductive images (I : Type) : Type :=
| Both (color depth : I)
| One (image : I)
| Nothing.
Arguments Both {I} color depth.
Arguments One {I} image.
Arguments Nothing {I}.

(** [ret == "rgb"] for an optional string; [None] equals no string. *)
Definition ret_is (ret : option string) (s : string) : bool :=
  match ret with
  | Some r => String.eqb r s
  | None => false
  end.

Definition get_pil_images (self : t) (ret : option string) : Py.M (images PIL.Image) :=
  match ret with
  | None =>
      c <- PIL.open (color_path self) ;;
      d <- PIL.open (depth_path self) ;;
      Py.ret (Both c d)
  | Some _ =>
      if ret_is ret "rgb" then
        c <- PIL.open (color_path self) ;; Py.ret (One c)
      else if ret_is ret "depth" then
        d <- PIL.open (depth_path self) ;; Py.ret (One d)
      else Py.ret Nothing
  end.

Definition get_o3d_images {L : o3d.Logger} (self : t) (ret : option string)
    : Py.M (images o3d.Image) :=
  match ret with
  | None =>
      c <- o3d.read_image (color_path self) ;;
      d <- o3d.read_image (depth_path self) ;;
      Py.ret (Both c d)
  | Some _ =>
      if ret_is ret "rgb" then
        c <- o3d.read_image (color_path self) ;; Py.ret (One c)
      else if ret_is ret "depth" then
        d <- o3d.read_image (depth_path self) ;; Py.ret (One d)
      else Py.ret Nothing
  end.

Definition get_cv2_images (self : t) (ret : option string) : Py.M (images (option cv2.Mat)) :=
  match ret with
  | None =>
      c <- cv2.imread (color_path self) ;;
      d <- cv2.imread (depth_path self) ;;
      Py.ret (Both c d)
  | Some _ =>
      if ret_is ret "rgb" then
        c <- cv2.imread (color_path self) ;; Py.ret (One c)
      else if ret_is ret "depth" then
        d <- cv2.imread (depth_path self) ;; Py.ret (One d)
      else Py.ret Nothing
  end.

(** [get_rgbd_image]: the body is [pass]. *)
Definition get_rgbd_image (self : t) : Py.M unit := Py.ret tt.

(** [with Image.open(self.__color_path) as img: return img.size] *)
Definition get_size (self : t) : Py.M (Z * Z) :=
  img <- PIL.open (color_path self) ;;
  Py.ret (PIL.im_size img).

End Frame.

(* ------------------------------------------------------------------ *)
(** * [tools/Matcher.py]                                                *)
(* ------------------------------------------------------------------ *)

Module Matcher.

Definition FLANN : string := "FLANN".
Definition DNN : string := "DNN".

(** The attributes of a matcher; [core] is absent when the constructor
    never assigned it. *)
Record t : Set :=
  { num_features : Z;
    filter_test : float;
    core : option cv2.FlannBasedMatcher }.

Definition default_search_algorithm : Z := 6.
Definition default_filter_test : float := 0.7%float.

(** A message in red, as the code prints its diagnostics. *)
Definition red (msg : string) : string :=
  (Py.esc ++ "[91m") ++ msg ++ (Py.esc ++ "[0m").

Definition __init__ (num_features : Z) (method : string)
    (search_algorithm : Z) (filter_test : float) : Py.M t :=
  if String.eqb method FLANN then
    let index_params :=
      if (search_algorithm =? 6)%Z
      then [("algorithm", search_algorithm); ("table_number", 6%Z);
            ("key_size", 12%Z); ("multi_probe_level", 1%Z)]
      else [("algorithm", search_algorithm); ("trees", 5%Z)] in
    let search_params := [("checks", num_features)] in
    Py.ret {| num_features := num_features;
              filter_test := filter_test;
              core := Some {| cv2.indexParams := index_params;
                              cv2.searchParams := search_params |} |}
  else if String.eqb method DNN then
    Py.print (red "DNN matcher to be done yet...") ;;;
    Py.ret {| num_features := num_features; filter_test := filter_test; core := None |}
  else
    Py.print (red "Method not found") ;;;
    Py.ret {| num_features := num_features; filter_test := filter_test; core := None |}.

(** The [for m, n in matches] loop of [_filter], with the list [good]
    built so far; [good.append(m)] puts [m] at the end. *)
Fixpoint filter_loop (matches : list (list DMatch)) (filter_test : float)
    (good : list DMatch) : Py.M (list DMatch) :=
  match matches with
  | [] => Py.ret good
  | x :: rest =>
      '(m, n) <- Py.unpack2 x ;;
      if PrimFloat.ltb (distance m) (PrimFloat.mul filter_test (distance n))
      then filter_loop rest filter_test (good ++ [m])
      else filter_loop rest filter_test good
  end.

(** [_filter]: the list of inliers, or no value ([None]) when the handler
    of [ValueError] ran. *)
Definition _filter (matches : list (list DMatch)) (filter_test : float)
    : Py.M (option (list DMatch)) :=
  Py.try_except
    (good <- filter_loop matches filter_test [] ;; Py.ret (Some good))
    Py.ValueError
    (Py.print (red "Filter matching error") ;;; Py.ret None).

Definition match_ {E : cv2.FlannEngine} (self : t) (img_1 img_2 : Frame.t)
    : Py.M (option (list DMatch)) :=
  match core self with
  | None => Py.raise Py.AttributeError
  | Some engine =>
      matches <- Py.lift (cv2.knnMatch engine (Frame.descriptors img_1)
                                       (Frame.descriptors img_2) 2) ;;
      let matches := filter (fun x => Nat.eqb (List.length x) 2) matches in
      _filter matches (filter_test self)
  end.

Definition default_limit : Z := (-1)%Z.

(** [a == b] on two [(width, height)] tuples. *)
Definition size_eqb (a b : Z * Z) : bool :=
  ((fst a =? fst b) && (snd a =? snd b))%Z.

(** The image argument OpenCV sees when given what [get_cv2_images]
    returned: an image only when a single image came back. *)
Definition as_mat (x : Frame.images (option cv2.Mat)) : option cv2.Mat :=
  match x with
  | Frame.One i => i
  | _ => None
  end.

Definition draw_matches (img_1 img_2 : Frame.t) (matches : list DMatch)
    (limit : Z) : Py.M cv2.Mat :=
  size_1 <- Frame.get_size img_1 ;;
  size_2 <- Frame.get_size img_2 ;;
  Py.assert (size_eqb size_1 size_2) ;;;
  let draw_params :=
    {| cv2.matchColor := (-1)%Z;
       cv2.singlePointColor := None;
       cv2.matchesMask := None;
       cv2.flags := 2%Z |} in
  rgb_1 <- Frame.get_cv2_images img_1 (Some "rgb") ;;
  rgb_2 <- Frame.get_cv2_images img_2 (Some "rgb") ;;
  final_img <- cv2.drawMatches (as_mat rgb_1) (Frame.key_points img_1)
                               (as_mat rgb_2) (Frame.key_points img_2)
                               (Py.slice_to matches limit) draw_params ;;
  '(width, height) <- Frame.get_size img_1 ;;
  cv2.resize final_img ((width * 2)%Z, height).

End Matcher.

(* ------------------------------------------------------------------ *)
(** * What the specification calls the result of matching               *)
(* ------------------------------------------------------------------ *)

Module Spec.

(** A query passed the exactly-2-candidates check. *)
Definition two_candidates (x : list DMatch) : bool :=
  Nat.eqb (List.length x) 2.

(** A query passed the ratio test: best against second best. *)
Definition ratio_test (filter_test : float) (x : list DMatch) : bool :=
  match x with
  | best :: second_best :: _ =>
      PrimFloat.ltb (distance best) (PrimFloat.mul filter_test (distance second_best))
  | _ => false
  end.

(** The best candidate of every query that has one, in search order. *)
Definition best_candidates (raw : list (list DMatch)) : list DMatch :=
  flat_map (firstn 1) raw.

(** The best candidates of the queries that passed both checks, in
    search order. *)
Definition accepted_best (filter_test : float) (raw : list (list DMatch))
    : list DMatch :=
  best_candidates
    (filter (fun x => two_candidates x && ratio_test filter_test x) raw).

(** What one query adds to the result: its best candidate when it passed
    both checks, nothing otherwise. *)
Definition kept (filter_test : float) (x : list DMatch) : list DMatch :=
  if two_candidates x && ratio_test filter_test x then firstn 1 x else [].

(** The image [cv2.imread] makes of a decoded file. *)
Definition mat_of (pic : Py.picture) : cv2.Mat := cv2.decoded pic.

(** The keyword arguments of the drawing call. *)
Definition draw_params : cv2.draw_params :=
  {| cv2.matchColor := (-1)%Z;
     cv2.singlePointColor := None;
     cv2.matchesMask := None;
     cv2.flags := 2%Z |}.

(** The world once the colour files of both frames went to a loader. *)
Definition sizes_read (img_1 img_2 : Frame.t) (w : Py.world) : Py.world :=
  Py.having_loaded (Py.having_loaded w (Frame.color_path img_1))
                   (Frame.color_path img_2).

(** [l] is [k] with some elements left out, the others in their order. *)
Inductive subsequence {A : Type} : list A -> list A -> Prop :=
| sub_nil : subsequence [] []
| sub_skip : forall x l k, subsequence l k -> subsequence l (x :: k)
| sub_keep : forall x l k, subsequence l k -> subsequence (x :: l) (x :: k).

End Spec.

(* ------------------------------------------------------------------ *)
(** * What a computation may do to the world                            *)
(* ------------------------------------------------------------------ *)

Module Effects.

(** From [w] to [w'] the disk and the console stayed as they were, and
    the only paths handed to an image loader are among [allowed]. *)
Definition reads_within (allowed : list string) (w w' : Py.world) : Prop :=
  Py.files w' = Py.files w /\
  Py.stdout w' = Py.stdout w /\
  exists paths, Py.loaded w' = (Py.loaded w ++ paths)%list /\ incl paths allowed.

(** A computation that, whatever its outcome, prints nothing, leaves the
    disk alone and loads paths among [allowed] only. *)
Definition io_within {A : Type} (allowed : list string) (c : Py.M A) : Prop :=
  forall w, reads_within allowed w (snd (c w)).

(** From [w] to [w'] the disk stayed as it was, the only lines printed
    are among [lines], and the only paths handed to an image loader are
    among [allowed]. *)
Definition logs_within (allowed lines : list string) (w w' : Py.world) : Prop :=
  Py.files w' = Py.files w /\
  (exists out, Py.stdout w' = (Py.stdout w ++ out)%list /\ incl out lines) /\
  (exists paths, Py.loaded w' = (Py.loaded w ++ paths)%list /\ incl paths allowed).

(** The world once the given paths went to a loader, one after another. *)
Definition having_loaded_all (w : Py.world) (paths : list string) : Py.world :=
  fold_left Py.having_loaded paths w.

(** The colour and depth paths of a frame. *)
Definition paths_of (self : Frame.t) : list string :=
  [Frame.color_path self; Frame.depth_path self].

End Effects.

(* ------------------------------------------------------------------ *)
(** * Sample data                                                       *)
(* ------------------------------------------------------------------ *)

Module Sample.

Definition dmatch (q t : Z) (d : float) : DMatch :=
  {| queryIdx := q; trainIdx := t; imgIdx := 0; distance := d |}.

Definition near_0 := dmatch 0 3 10%float.
Definition far_0 := dmatch 0 7 40%float.
Definition near_1 := dmatch 1 2 30%float.
Definition far_1 := dmatch 1 5 35%float.
Definition near_2 := dmatch 2 4 5%float.
Definition far_2 := dmatch 2 9 50%float.
Definition lone_3 := dmatch 3 1 1%float.

(** Three well-formed candidate pairs: the first and the last pass the
    0.7 ratio test, the middle one does not. *)
Definition pairs : list (list DMatch) :=
  [[near_0; far_0]; [near_1; far_1]; [near_2; far_2]].

(** A search answer with a query that found one candidate only. *)
Definition raw_answer : list (list DMatch) :=
  [[near_0; far_0]; [lone_3]; [near_1; far_1]; [near_2; far_2]].

(** A candidate list with a malformed element after an accepted pair. *)
Definition malformed : list (list DMatch) :=
  [[near_0; far_0]; [lone_3]; [near_2; far_2]].

(** An engine that answers every search with the given lists. *)
Definition answering (raw : list (list DMatch)) : cv2.FlannEngine :=
  {| cv2.knnMatch := fun _ _ _ _ => Py.Return raw |}.

Definition key_point (x y : float) : KeyPoint :=
  {| pt_x := x; pt_y := y; size := 31%float; angle := 0%float |}.

Definition ten_key_points : list KeyPoint :=
  map (fun i => key_point i i)
      [1; 2; 3; 4; 5; 6; 7; 8; 9; 10]%float.

Definition ten_descriptors : descriptors :=
  map (fun i => [i; (i + 1)%Z]) [0; 1; 2; 3; 4; 5; 6; 7; 8; 9]%Z.

Definition frame_a : Frame.t :=
  {| Frame.color_path := "a_rgb.png"; Frame.depth_path := "a_depth.png";
     Frame.key_points := Some ten_key_points;
     Frame.descriptors := Some ten_descriptors |}.

Definition frame_b : Frame.t :=
  {| Frame.color_path := "b_rgb.png"; Frame.depth_path := "b_depth.png";
     Frame.key_points := Some ten_key_points;
     Frame.descriptors := Some ten_descriptors |}.

Definition frame_wide : Frame.t :=
  {| Frame.color_path := "wide_rgb.png"; Frame.depth_path := "wide_depth.png";
     Frame.key_points := Some ten_key_points;
     Frame.descriptors := Some ten_descriptors |}.

(** A disk with two 100x100 colour images and one of 120x100. *)
Definition disk (path : string) : option Py.picture :=
  if String.eqb path "a_rgb.png" then
    Some {| Py.pic_width := 100; Py.pic_height := 100; Py.pic_quarter_turn := false |}
  else if String.eqb path "b_rgb.png" then
    Some {| Py.pic_width := 100; Py.pic_height := 100; Py.pic_quarter_turn := false |}
  else if String.eqb path "wide_rgb.png" then
    Some {| Py.pic_width := 120; Py.pic_height := 100; Py.pic_quarter_turn := false |}
  else if String.eqb path "turned_rgb.jpg" then
    Some {| Py.pic_width := 120; Py.pic_height := 100; Py.pic_quarter_turn := true |}
  else None.

Definition fresh : Py.world :=
  {| Py.files := disk; Py.stdout := []; Py.loaded := [] |}.

(** A matcher as [Matcher(50, 'FLANN')] builds it. *)
Definition flann_50 : Matcher.t :=
  {| Matcher.num_features := 50;
     Matcher.filter_test := Matcher.default_filter_test;
     Matcher.core :=
       Some {| cv2.indexParams := [("algorithm", 6%Z); ("table_number", 6%Z);
                                   ("key_size", 12%Z); ("multi_probe_level", 1%Z)];
               cv2.searchParams := [("checks", 50%Z)] |} |}.

(** Seven matches between the sample frames. *)
Definition seven_matches : list DMatch :=
  [near_0; near_1; near_2; lone_3; far_0; far_1; far_2].

(** A frame whose colour file is not on the sample disk. *)
Definition frame_lost : Frame.t :=
  {| Frame.color_path := "lost_rgb.png"; Frame.depth_path := "lost_depth.png";
     Frame.key_points := Some ten_key_points;
     Frame.descriptors := Some ten_descriptors |}.

(** The engine [Matcher(50, 'FLANN')] configures. *)
Definition engine_50 : cv2.FlannBasedMatcher :=
  {| cv2.indexParams := [("algorithm", 6%Z); ("table_number", 6%Z);
                         ("key_size", 12%Z); ("multi_probe_level", 1%Z)];
     cv2.searchParams := [("checks", 50%Z)] |}.

(** A frame whose colour file carries a quarter-turn orientation. *)
Definition frame_turned : Frame.t :=
  {| Frame.color_path := "turned_rgb.jpg"; Frame.depth_path := "turned_depth.png";
     Frame.key_points := Some ten_key_points;
     Frame.descriptors := Some ten_descriptors |}.

(** A wording for Open3D's warning. *)
Definition open3d : o3d.Logger :=
  {| o3d.read_failed := fun path => "[Open3D WARNING] cannot read " ++ path |}.

(** An engine whose search always fails. *)
Definition failing : cv2.FlannEngine :=
  {| cv2.knnMatch := fun _ _ _ _ => Py.Raise Py.cv2_error |}.

(** The 200x100 composite of the two sample frames with the given links,
    and the world once [draw_matches] has returned it. *)
Definition composite (drawn : list DMatch) : cv2.Mat :=
  {| cv2.cols := 200; cv2.rows := 100; cv2.links := drawn |}.

Definition after_drawing : Py.world :=
  Py.having_loaded
    (Spec.sizes_read frame_a frame_b (Spec.sizes_read frame_a frame_b fresh))
    "a_rgb.png".

End Sample.

(* ------------------------------------------------------------------ *)
(** * Running the model on the sample data                              *)
(* ------------------------------------------------------------------ *)

Example filter_pairs_run :
  Matcher._filter Sample.pairs 0.7%float Sample.fresh
  = (Py.Return (Some [Sample.near_0; Sample.near_2]), Sample.fresh).
Proof. reflexivity. Qed.

Example init_flann_run :
  Matcher.__init__ 50 "FLANN" Matcher.default_search_algorithm
                   Matcher.default_filter_test Sample.fresh
  = (Py.Return Sample.flann_50, Sample.fresh).
Proof. reflexivity. Qed.

Example match_run :
  @Matcher.match_ (Sample.answering Sample.raw_answer) Sample.flann_50
                  Sample.frame_a Sample.frame_b Sample.fresh
  = (Py.Return (Some [Sample.near_0; Sample.near_2]), Sample.fresh).
Proof. reflexivity. Qed.

Example slice_examples :
  Py.slice_to [1; 2; 3]%Z 2 = [1; 2]%Z /\
  Py.slice_to [1; 2; 3]%Z 5 = [1; 2; 3]%Z /\
  Py.slice_to [1; 2; 3]%Z (-1) = [1; 2]%Z /\
  Py.slice_to [1; 2; 3]%Z (-7) = @nil Z /\
  Py.slice_to [1; 2; 3]%Z 0 = @nil Z.
Proof. repeat split. Qed.

(** PIL reports the stored size of a file with a quarter-turn
    orientation, OpenCV the turned one. *)
Example orientation_run :
  fst (PIL.open "turned_rgb.jpg" Sample.fresh)
  = Py.Return {| PIL.im_size := (120, 100)%Z |} /\
  fst (cv2.imread "turned_rgb.jpg" Sample.fresh)
  = Py.Return (Some {| cv2.cols := 100; cv2.rows := 120; cv2.links := [] |}).
Proof. split; reflexivity. Qed.

(** Open3D warns about a file it cannot read and hands back an empty
    image. *)
Example read_image_lost_run :
  @o3d.read_image Sample.open3d "lost_rgb.png" Sample.fresh
  = (Py.Return {| o3d.o3d_width := 0; o3d.o3d_height := 0 |},
     Py.printed (Py.having_loaded Sample.fresh "lost_rgb.png")
                "[Open3D WARNING] cannot read lost_rgb.png").
Proof. reflexivity. Qed.

(** Frames without key points can be drawn as long as no match is. *)
Example draw_without_key_points_run :
  fst (Matcher.draw_matches (Frame.__init__ "a_rgb.png" "a_depth.png")
                            (Frame.__init__ "b_rgb.png" "b_depth.png")
                            [] Matcher.default_limit Sample.fresh)
  = Py.Return (Sample.composite []) /\
  fst (Matcher.draw_matches (Frame.__init__ "a_rgb.png" "a_depth.png")
                            (Frame.__init__ "b_rgb.png" "b_depth.png")
                            [Sample.near_0; Sample.near_1] Matcher.default_limit
                            Sample.fresh)
  = Py.Raise Py.cv2_error.
Proof. split; reflexivity. Qed.

Unset Implicit Arguments.

(* ------------------------------------------------------------------ *)
(** * The filter loop                                                   *)
(* ------------------------------------------------------------------ *)

Section FilterLoop.

Variable filter_test : float.

Lemma kept_pair (m n : DMatch) :
  Spec.kept filter_test [m; n]
  = if PrimFloat.ltb (distance m) (PrimFloat.mul filter_test (distance n))
    then [m] else [].
Proof. unfold Spec.kept; simpl. now destruct (PrimFloat.ltb _ _). Qed.

Lemma two_candidates_shape (x : list DMatch) :
  Spec.two_candidates x = true <-> exists m n, x = [m; n].
Proof.
  unfold Spec.two_candidates; split.
  - destruct x as [|m [|n [|o x]]]; simpl; try discriminate.
    intros _; now exists m, n.
  - intros (m & n & ->); reflexivity.
Qed.

Lemma two_candidates_length (x : list DMatch) :
  Spec.two_candidates x = true <-> List.length x = 2%nat.
Proof. unfold Spec.two_candidates; apply Nat.eqb_eq. Qed.

(** The loop never touches the world; it stops with [ValueError] at the
    first element that is not a pair, and otherwise appends to [good] the
    best of every pair that passes the test, in order. *)
Lemma filter_loop_run (matches : list (list DMatch)) :
  forall (good : list DMatch) (w : Py.world),
    Matcher.filter_loop matches filter_test good w
    = if forallb Spec.two_candidates matches
      then (Py.Return (good ++ flat_map (Spec.kept filter_test) matches)%list, w)
      else (Py.Raise Py.ValueError, w).
Proof.
  induction matches as [|x rest IH]; intros good w.
  - simpl; now rewrite app_nil_r.
  - destruct x as [|m [|n [|o x]]]; try reflexivity.
    cbn [Matcher.filter_loop Py.unpack2 forallb flat_map].
    unfold Py.bind at 1; cbn [Py.ret].
    rewrite kept_pair.
    change (Spec.two_candidates [m; n]) with true; cbn [andb].
    destruct (PrimFloat.ltb (distance m) (PrimFloat.mul filter_test (distance n)));
      rewrite IH; destruct (forallb Spec.two_candidates rest);
      try reflexivity.
    now rewrite <- app_assoc.
Qed.

Lemma _filter_run (matches : list (list DMatch)) (w : Py.world) :
  Matcher._filter matches filter_test w
  = if forallb Spec.two_candidates matches
    then (Py.Return (Some (flat_map (Spec.kept filter_test) matches)), w)
    else (Py.Return None, Py.printed w (Matcher.red "Filter matching error")).
Proof.
  unfold Matcher._filter, Py.try_except, Py.bind.
  rewrite filter_loop_run.
  destruct (forallb Spec.two_candidates matches); reflexivity.
Qed.

Lemma in_kept (m : DMatch) (x : list DMatch) :
  In m (Spec.kept filter_test x) ->
  exists n, x = [m; n] /\
            PrimFloat.ltb (distance m) (PrimFloat.mul filter_test (distance n)) = true.
Proof.
  unfold Spec.kept; destruct (Spec.two_candidates x) eqn:Htwo; [|contradiction].
  apply two_candidates_shape in Htwo as (a & b & ->); simpl.
  destruct (PrimFloat.ltb _ _) eqn:Hlt; simpl; [|contradiction].
  intros [<- | []]; now exists b.
Qed.

Lemma flat_map_kept_accepted (raw : list (list DMatch)) :
  flat_map (Spec.kept filter_test) raw = Spec.accepted_best filter_test raw.
Proof.
  unfold Spec.accepted_best, Spec.best_candidates.
  induction raw as [|x raw IH]; [reflexivity|].
  cbn [flat_map filter]; unfold Spec.kept at 1.
  destruct (Spec.two_candidates x && Spec.ratio_test filter_test x);
    cbn [flat_map app]; now rewrite IH.
Qed.

Lemma kept_filter_two (raw : list (list DMatch)) :
  flat_map (Spec.kept filter_test) (filter Spec.two_candidates raw)
  = flat_map (Spec.kept filter_test) raw.
Proof.
  induction raw as [|x raw IH]; [reflexivity|].
  cbn [filter flat_map]; destruct (Spec.two_candidates x) eqn:Htwo.
  - cbn [flat_map]; now rewrite IH.
  - rewrite IH; unfold Spec.kept at 2; now rewrite Htwo.
Qed.

Lemma forallb_filter_two (raw : list (list DMatch)) :
  forallb Spec.two_candidates (filter Spec.two_candidates raw) = true.
Proof.
  apply forallb_forall; intros x Hx; now apply filter_In in Hx.
Qed.

End FilterLoop.

Lemma forallb_two_false (matches : list (list DMatch)) :
  Exists (fun x => List.length x <> 2%nat) matches ->
  forallb Spec.two_candidates matches = false.
Proof.
  intros Hbad; apply not_true_is_false; intros Hall.
  rewrite forallb_forall in Hall.
  apply Exists_exists in Hbad as (x & Hin & Hlen).
  apply Hlen, two_candidates_length, Hall, Hin.
Qed.


Lemma forallb_two_true (matches : list (list DMatch)) :
  Forall (fun x => List.length x = 2%nat) matches ->
  forallb Spec.two_candidates matches = true.
Proof.
  intros Hall; apply forallb_forall; intros x Hin.
  rewrite Forall_forall in Hall; now apply two_candidates_length, Hall.
Qed.

Lemma subsequence_refl {A : Type} (l : list A) : Spec.subsequence l l.
Proof. induction l; constructor; assumption. Qed.

Lemma subsequence_app_skip {A : Type} (p l k : list A) :
  Spec.subsequence l k -> Spec.subsequence l (p ++ k).
Proof. intros H; induction p; simpl; [assumption | now constructor]. Qed.

Lemma subsequence_app_keep {A : Type} (p l k : list A) :
  Spec.subsequence l k -> Spec.subsequence (p ++ l) (p ++ k).
Proof. intros H; induction p; simpl; [assumption | now constructor]. Qed.

Lemma subsequence_flat_map_filter {A B : Type} (g : A -> list B)
    (f : A -> bool) (l : list A) :
  Spec.subsequence (flat_map g (filter f l)) (flat_map g l).
Proof.
  induction l as [|x l IH]; simpl; [constructor|].
  destruct (f x); simpl.
  - now apply subsequence_app_keep.
  - now apply subsequence_app_skip.
Qed.

(* ------------------------------------------------------------------ *)
(** * [Matcher.match]                                                   *)
(* ------------------------------------------------------------------ *)

Section Match.

Context {E : cv2.FlannEngine}.
Variables (self : Matcher.t) (img_1 img_2 : Frame.t).

(** With an engine configured and an answer from the search, [match]
    returns the accepted best candidates and leaves the world alone. *)
Lemma match_run_ok (w : Py.world) (engine : cv2.FlannBasedMatcher)
    (raw : list (list DMatch)) :
  Matcher.core self = Some engine ->
  cv2.knnMatch engine (Frame.descriptors img_1) (Frame.descriptors img_2) 2
    = Py.Return raw ->
  Matcher.match_ self img_1 img_2 w
  = (Py.Return (Some (Spec.accepted_best (Matcher.filter_test self) raw)), w).
Proof.
  intros Hcore Hknn; unfold Matcher.match_, Py.bind, Py.lift.
  rewrite Hcore, Hknn, _filter_run.
  change (fun x : list DMatch => Nat.eqb (List.length x) 2) with Spec.two_candidates.
  now rewrite forallb_filter_two, kept_filter_two, flat_map_kept_accepted.
Qed.

(** A call of [match] that returns had an engine and got an answer. *)
Lemma match_returns_inv (w w' : Py.world) (r : option (list DMatch)) :
  Matcher.match_ self img_1 img_2 w = (Py.Return r, w') ->
  exists engine raw,
    Matcher.core self = Some engine /\
    cv2.knnMatch engine (Frame.descriptors img_1) (Frame.descriptors img_2) 2
      = Py.Return raw.
Proof.
  unfold Matcher.match_, Py.bind, Py.lift, Py.raise.
  destruct (Matcher.core self) as [engine|]; [|discriminate].
  destruct (cv2.knnMatch engine _ _ 2) as [raw|e] eqn:Hknn; [|discriminate].
  intros _; exists engine, raw; now split.
Qed.

(** Without an engine the attribute lookup [self.core] fails. *)
Lemma match_without_core (w : Py.world) :
  Matcher.core self = None ->
  Matcher.match_ self img_1 img_2 w = (Py.Raise Py.AttributeError, w).
Proof. intros Hcore; unfold Matcher.match_; now rewrite Hcore. Qed.

End Match.

Lemma in_accepted_best (filter_test : float) (raw : list (list DMatch)) (m : DMatch) :
  In m (Spec.accepted_best filter_test raw) ->
  exists n, In [m; n] raw /\
            PrimFloat.ltb (distance m) (PrimFloat.mul filter_test (distance n)) = true.
Proof.
  rewrite <- flat_map_kept_accepted, in_flat_map.
  intros (x & Hx & Hm); apply in_kept in Hm as (n & -> & Hlt).
  now exists n.
Qed.

(** The matches [match] returns passed the ratio test too, each against
    the second candidate of the search answer it heads. *)
Lemma match_ratio_test {E : cv2.FlannEngine} (self : Matcher.t)
    (img_1 img_2 : Frame.t) (w w' : Py.world) (good : list DMatch) (m : DMatch) :
  Matcher.match_ self img_1 img_2 w = (Py.Return (Some good), w') ->
  In m good ->
  exists engine raw n,
    Matcher.core self = Some engine /\
    cv2.knnMatch engine (Frame.descriptors img_1) (Frame.descriptors img_2) 2
      = Py.Return raw /\
    In [m; n] raw /\
    PrimFloat.ltb (distance m)
                  (PrimFloat.mul (Matcher.filter_test self) (distance n)) = true.
Proof.
  intros Hrun Hin.
  destruct (match_returns_inv self img_1 img_2 w w' _ Hrun)
    as (engine & raw & Hcore & Hknn).
  rewrite (match_run_ok self img_1 img_2 w engine raw Hcore Hknn) in Hrun.
  injection Hrun as Hgood _; subst good.
  apply in_accepted_best in Hin as (n & Hin & Hlt).
  now exists engine, raw, n.
Qed.

(* ------------------------------------------------------------------ *)
(** * Properties of the ratio-test filter                               *)
(* ------------------------------------------------------------------ *)

(** C1. Whatever the threshold [filter_test] (so in particular for every
    threshold in (0,1]) and whatever the candidate list, every match [m] in
    the list [_filter] returns came from a pair [[m; n]] of the input and
    satisfies [m.distance < filter_test * n.distance] against the second
    element [n] of that pair. Hence the same holds of every match [match]
    returns, with the matcher's threshold and with [[m; n]] one of the
    answers of the search. *)
Theorem filter_ratio_test :
  (forall (matches : list (list DMatch)) (filter_test : float)
          (w w' : Py.world) (good : list DMatch) (m : DMatch),
      Matcher._filter matches filter_test w = (Py.Return (Some good), w') ->
      In m good ->
      exists n,
        In [m; n] matches /\
        PrimFloat.ltb (distance m) (PrimFloat.mul filter_test (distance n)) = true) /\
  (forall (E : cv2.FlannEngine) (self : Matcher.t) (img_1 img_2 : Frame.t)
          (w w' : Py.world) (good : list DMatch) (m : DMatch),
      Matcher.match_ self img_1 img_2 w = (Py.Return (Some good), w') ->
      In m good ->
      exists engine raw n,
        Matcher.core self = Some engine /\
        cv2.knnMatch engine (Frame.descriptors img_1) (Frame.descriptors img_2) 2
          = Py.Return raw /\
        In [m; n] raw /\
        PrimFloat.ltb (distance m)
                      (PrimFloat.mul (Matcher.filter_test self) (distance n)) = true).
Proof.
  split.
  - intros matches filter_test w w' good m; rewrite _filter_run.
    destruct (forallb Spec.two_candidates matches); [|discriminate].
    intros Hrun Hin; injection Hrun as Hgood _; subst good.
    rewrite flat_map_kept_accepted in Hin.
    now apply in_accepted_best.
  - intros E self img_1 img_2 w w' good m Hrun Hin.
    now apply (match_ratio_test self img_1 img_2 w w' good m).
Qed.

Lemma filter_ratio_test_witness :
  (exists n,
      In [Sample.near_2; n] Sample.pairs /\
      PrimFloat.ltb (distance Sample.near_2) (PrimFloat.mul 0.7 (distance n)) = true) /\
  (exists engine raw n,
      Matcher.core Sample.flann_50 = Some engine /\
      @cv2.knnMatch (Sample.answering Sample.raw_answer) engine
         (Frame.descriptors Sample.frame_a) (Frame.descriptors Sample.frame_b) 2
        = Py.Return raw /\
      In [Sample.near_2; n] raw /\
      PrimFloat.ltb (distance Sample.near_2)
                    (PrimFloat.mul (Matcher.filter_test Sample.flann_50) (distance n))
      = true).
Proof.
  split.
  - apply (proj1 filter_ratio_test Sample.pairs 0.7%float Sample.fresh Sample.fresh
             [Sample.near_0; Sample.near_2] Sample.near_2).
    + reflexivity.
    + simpl; auto.
  - apply (proj2 filter_ratio_test (Sample.answering Sample.raw_answer)
             Sample.flann_50 Sample.frame_a Sample.frame_b Sample.fresh Sample.fresh
             [Sample.near_0; Sample.near_2] Sample.near_2).
    + reflexivity.
    + simpl; auto.
Defined.

(** C4. When some element of the candidate list does not unpack into
    exactly two values, [_filter] catches the [ValueError], prints its
    diagnostic and returns no value: the outcome is [None], never a list,
    whatever pairs before the element had already been accepted. *)
Theorem filter_malformed_returns_none (matches : list (list DMatch))
    (filter_test : float) (w : Py.world) :
  Exists (fun x => List.length x <> 2%nat) matches ->
  Matcher._filter matches filter_test w
  = (Py.Return None, Py.printed w (Matcher.red "Filter matching error")).
Proof.
  intros Hbad; rewrite _filter_run.
  now rewrite (forallb_two_false matches Hbad).
Qed.

Lemma filter_malformed_returns_none_witness :
  Spec.kept 0.7 [Sample.near_0; Sample.far_0] = [Sample.near_0] /\
  Matcher._filter Sample.malformed 0.7 Sample.fresh
  = (Py.Return None,
     Py.printed Sample.fresh (Matcher.red "Filter matching error")).
Proof.
  split; [reflexivity|].
  apply (filter_malformed_returns_none Sample.malformed 0.7 Sample.fresh).
  apply Exists_cons_tl, Exists_cons_hd; simpl; lia.
Defined.

(** C10. When every element of the candidate list unpacks into exactly two
    values, [_filter] returns a list and prints nothing; on the empty
    candidate list it returns the empty list, which differs from what it
    returns on any input with a malformed element. *)
Theorem filter_well_formed_returns_list (matches : list (list DMatch))
    (filter_test : float) (w : Py.world) :
  Forall (fun x => List.length x = 2%nat) matches ->
  (exists good,
      Matcher._filter matches filter_test w = (Py.Return (Some good), w)) /\
  Matcher._filter [] filter_test w = (Py.Return (Some []), w) /\
  (forall bad,
      Exists (fun x => List.length x <> 2%nat) bad ->
      fst (Matcher._filter bad filter_test w)
      <> fst (Matcher._filter [] filter_test w)).
Proof.
  intros Hall; repeat split.
  - rewrite _filter_run, (forallb_two_true matches Hall); eauto.
  - intros bad Hbad.
    rewrite !_filter_run, (forallb_two_false bad Hbad); simpl; discriminate.
Qed.

Lemma filter_well_formed_returns_list_witness :
  exists good,
    Matcher._filter Sample.pairs 0.7 Sample.fresh = (Py.Return (Some good), Sample.fresh).
Proof.
  apply (filter_well_formed_returns_list Sample.pairs 0.7 Sample.fresh).
  repeat constructor.
Defined.

(* ------------------------------------------------------------------ *)
(** * Properties of [Matcher.match]                                     *)
(* ------------------------------------------------------------------ *)



(** C5. A call of [match] that returns had an engine and an answer [raw]
    from the search, and what it returns is the list of the best
    candidates of the queries that passed the exactly-2-candidates check
    and the ratio test, in the order of [raw]: a subsequence of the best
    candidates as the search returned them. *)
Theorem match_preserves_order (E : cv2.FlannEngine) (self : Matcher.t)
    (img_1 img_2 : Frame.t) (w w' : Py.world) (r : option (list DMatch)) :
  Matcher.match_ self img_1 img_2 w = (Py.Return r, w') ->
  exists engine raw,
    Matcher.core self = Some engine /\
    cv2.knnMatch engine (Frame.descriptors img_1) (Frame.descriptors img_2) 2
      = Py.Return raw /\
    r = Some (Spec.accepted_best (Matcher.filter_test self) raw) /\
    Spec.subsequence (Spec.accepted_best (Matcher.filter_test self) raw)
                     (Spec.best_candidates raw).
Proof.
  intros Hrun.
  destruct (match_returns_inv self img_1 img_2 w w' r Hrun)
    as (engine & raw & Hcore & Hknn).
  exists engine, raw; repeat split; try assumption.
  - rewrite (match_run_ok self img_1 img_2 w engine raw Hcore Hknn) in Hrun.
    now injection Hrun as <- _.
  - apply subsequence_flat_map_filter.
Qed.

Lemma match_preserves_order_witness :
  exists engine raw,
    Matcher.core Sample.flann_50 = Some engine /\
    @cv2.knnMatch (Sample.answering Sample.raw_answer) engine
       (Frame.descriptors Sample.frame_a) (Frame.descriptors Sample.frame_b) 2
      = Py.Return raw /\
    Some [Sample.near_0; Sample.near_2]
      = Some (Spec.accepted_best (Matcher.filter_test Sample.flann_50) raw) /\
    Spec.subsequence (Spec.accepted_best (Matcher.filter_test Sample.flann_50) raw)
                     (Spec.best_candidates raw).
Proof.
  apply (match_preserves_order (Sample.answering Sample.raw_answer)
           Sample.flann_50 Sample.frame_a Sample.frame_b
           Sample.fresh Sample.fresh).
  reflexivity.
Defined.

(* ------------------------------------------------------------------ *)
(** * Construction and the image getters                                *)
(* ------------------------------------------------------------------ *)

(** C8. Constructing a matcher with a method that is neither ['FLANN'] nor
    ['DNN'] prints the warning, raises nothing and returns a matcher with
    no [core]; every later [match] on it fails with [AttributeError]. *)
Theorem init_unknown_method (num_features : Z) (method : string)
    (search_algorithm : Z) (filter_test : float) (w : Py.world) :
  method <> Matcher.FLANN ->
  method <> Matcher.DNN ->
  exists self,
    Matcher.__init__ num_features method search_algorithm filter_test w
    = (Py.Return self, Py.printed w (Matcher.red "Method not found")) /\
    Matcher.core self = None /\
    forall (E : cv2.FlannEngine) (img_1 img_2 : Frame.t) (w' : Py.world),
      Matcher.match_ self img_1 img_2 w' = (Py.Raise Py.AttributeError, w').
Proof.
  intros Hflann Hdnn; unfold Matcher.__init__.
  apply String.eqb_neq in Hflann, Hdnn; rewrite Hflann, Hdnn.
  eexists; repeat split.
Qed.

Lemma init_unknown_method_witness :
  exists self,
    Matcher.__init__ 50 "unknown" Matcher.default_search_algorithm
                     Matcher.default_filter_test Sample.fresh
    = (Py.Return self, Py.printed Sample.fresh (Matcher.red "Method not found")) /\
    Matcher.core self = None /\
    forall (E : cv2.FlannEngine) (img_1 img_2 : Frame.t) (w' : Py.world),
      Matcher.match_ self img_1 img_2 w' = (Py.Raise Py.AttributeError, w').
Proof.
  apply (init_unknown_method 50 "unknown" Matcher.default_search_algorithm
           Matcher.default_filter_test Sample.fresh); discriminate.
Defined.

(** C9. For a selector that is a string other than ["rgb"] and ["depth"],
    each of the three getters returns nothing ([None]) and leaves the world
    as it was: no path went to an image loader and nothing was raised. *)
Theorem getters_fall_through (L : o3d.Logger) (self : Frame.t) (ret : string)
    (w : Py.world) :
  ret <> "rgb" ->
  ret <> "depth" ->
  Frame.get_pil_images self (Some ret) w = (Py.Return Frame.Nothing, w) /\
  Frame.get_o3d_images self (Some ret) w = (Py.Return Frame.Nothing, w) /\
  Frame.get_cv2_images self (Some ret) w = (Py.Return Frame.Nothing, w).
Proof.
  intros Hrgb Hdepth.
  unfold Frame.get_pil_images, Frame.get_o3d_images, Frame.get_cv2_images,
    Frame.ret_is.
  apply String.eqb_neq in Hrgb, Hdepth; rewrite Hrgb, Hdepth.
  repeat split.
Qed.

Lemma getters_fall_through_witness :
  Frame.get_pil_images Sample.frame_a (Some "both") Sample.fresh
    = (Py.Return Frame.Nothing, Sample.fresh) /\
  @Frame.get_o3d_images Sample.open3d Sample.frame_a (Some "both") Sample.fresh
    = (Py.Return Frame.Nothing, Sample.fresh) /\
  Frame.get_cv2_images Sample.frame_a (Some "both") Sample.fresh
    = (Py.Return Frame.Nothing, Sample.fresh).
Proof.
  apply (getters_fall_through Sample.open3d Sample.frame_a "both" Sample.fresh);
    discriminate.
Defined.

(* ------------------------------------------------------------------ *)
(** * [Matcher.draw_matches]                                            *)
(* ------------------------------------------------------------------ *)

Lemma size_eqb_eq (a b : Z * Z) : Matcher.size_eqb a b = true <-> a = b.
Proof.
  destruct a as [a1 a2], b as [b1 b2]; unfold Matcher.size_eqb; simpl.
  rewrite andb_true_iff, !Z.eqb_eq; split.
  - intros [-> ->]; reflexivity.
  - intros H; injection H; auto.
Qed.

(** [get_size] reads the colour file through PIL and records the path. *)
Lemma get_size_run (self : Frame.t) (w : Py.world) :
  Frame.get_size self w
  = (match Py.files w (Frame.color_path self) with
     | Some pic => Py.Return (Py.pic_width pic, Py.pic_height pic)
     | None => Py.Raise Py.FileNotFoundError
     end,
     Py.having_loaded w (Frame.color_path self)).
Proof.
  unfold Frame.get_size, PIL.open, Py.bind, Py.load.
  destruct (Py.files w (Frame.color_path self)); reflexivity.
Qed.

Lemma get_rgb_run (self : Frame.t) (w : Py.world) :
  Frame.get_cv2_images self (Some "rgb") w
  = (Py.Return
       (Frame.One
          (match Py.files w (Frame.color_path self) with
           | Some pic => Some (cv2.decoded pic)
           | None => None
           end)),
     Py.having_loaded w (Frame.color_path self)).
Proof.
  unfold Frame.get_cv2_images, cv2.imread, Py.bind, Py.load; simpl.
  destruct (Py.files w (Frame.color_path self)); reflexivity.
Qed.

(** What [cv2.drawMatches] and [cv2.resize] can do: return, with the links
    and sizes as stated, or reject the call; neither touches the world. *)
Lemma drawMatches_cases (img1 img2 : option cv2.Mat)
    (kp1 kp2 : option (list KeyPoint)) (ms : list DMatch)
    (params : cv2.draw_params) (w : Py.world) :
  cv2.matchesMask params = None ->
  (exists img, cv2.drawMatches img1 kp1 img2 kp2 ms params w = (Py.Return img, w)
               /\ cv2.links img = ms) \/
  cv2.drawMatches img1 kp1 img2 kp2 ms params w = (Py.Raise Py.cv2_error, w).
Proof.
  intros Hmask; unfold cv2.drawMatches.
  destruct img1, img2; try (right; reflexivity).
  destruct (forallb _ ms); [left | right; reflexivity].
  eexists; split; [reflexivity|]; simpl; now rewrite Hmask.
Qed.

Lemma resize_cases (src : cv2.Mat) (width height : Z) (w : Py.world) :
  cv2.resize src (width, height) w
  = (Py.Return {| cv2.cols := width; cv2.rows := height;
                  cv2.links := cv2.links src |}, w) \/
  cv2.resize src (width, height) w = (Py.Raise Py.cv2_error, w).
Proof.
  unfold cv2.resize; destruct ((0 <? width)%Z && (0 <? height)%Z); auto.
Qed.

Section DrawMatches.

Variables (img_1 img_2 : Frame.t) (matches : list DMatch) (limit : Z).
Variable w : Py.world.

(** [draw_matches] step by step, for two frames whose colour files are
    on disk. *)
Lemma draw_matches_run (pic_1 pic_2 : Py.picture) :
  Py.files w (Frame.color_path img_1) = Some pic_1 ->
  Py.files w (Frame.color_path img_2) = Some pic_2 ->
  Matcher.draw_matches img_1 img_2 matches limit w
  = if Matcher.size_eqb (Py.pic_width pic_1, Py.pic_height pic_1)
                        (Py.pic_width pic_2, Py.pic_height pic_2)
    then
      match cv2.drawMatches (Some (Spec.mat_of pic_1)) (Frame.key_points img_1)
                            (Some (Spec.mat_of pic_2)) (Frame.key_points img_2)
                            (Py.slice_to matches limit) Spec.draw_params
                            (Spec.sizes_read img_1 img_2 (Spec.sizes_read img_1 img_2 w))
      with
      | (Py.Return final_img, w') =>
          cv2.resize final_img ((Py.pic_width pic_1 * 2)%Z, Py.pic_height pic_1)
                     (Py.having_loaded w' (Frame.color_path img_1))
      | (Py.Raise e, w') => (Py.Raise e, w')
      end
    else (Py.Raise Py.AssertionError, Spec.sizes_read img_1 img_2 w).
Proof.
  intros H1 H2.
  unfold Matcher.draw_matches, Py.bind.
  rewrite !get_size_run, H1; cbn [Py.files Py.having_loaded]; rewrite H2.
  destruct (Matcher.size_eqb _ _); [|reflexivity].
  cbn [Py.assert Py.ret].
  rewrite !get_rgb_run; cbn [Py.files Py.having_loaded]; rewrite H1, H2.
  cbn [Matcher.as_mat].
  change {| cv2.matchColor := -1; cv2.singlePointColor := None;
            cv2.matchesMask := None; cv2.flags := 2 |} with Spec.draw_params.
  fold (Spec.mat_of pic_1) (Spec.mat_of pic_2).
  fold (Spec.sizes_read img_1 img_2 w).
  fold (Spec.sizes_read img_1 img_2 (Spec.sizes_read img_1 img_2 w)).
  destruct (drawMatches_cases (Some (Spec.mat_of pic_1)) (Some (Spec.mat_of pic_2))
              (Frame.key_points img_1) (Frame.key_points img_2)
              (Py.slice_to matches limit) Spec.draw_params
              (Spec.sizes_read img_1 img_2 (Spec.sizes_read img_1 img_2 w)) eq_refl)
    as [(final_img & -> & _) | ->]; [|reflexivity].
  rewrite get_size_run.
  cbn [Py.files Py.having_loaded Spec.sizes_read]; now rewrite H1.
Qed.

(** The assertion fails when the two sizes differ: nothing but the two
    size queries has happened by then. *)
Lemma draw_matches_assert (size_1 size_2 : Z * Z) :
  fst (Frame.get_size img_1 w) = Py.Return size_1 ->
  fst (Frame.get_size img_2 w) = Py.Return size_2 ->
  size_1 <> size_2 ->
  Matcher.draw_matches img_1 img_2 matches limit w
  = (Py.Raise Py.AssertionError, Spec.sizes_read img_1 img_2 w).
Proof.
  rewrite !get_size_run; cbn [fst].
  destruct (Py.files w (Frame.color_path img_1)) as [pic_1|] eqn:H1; [|discriminate].
  destruct (Py.files w (Frame.color_path img_2)) as [pic_2|] eqn:H2; [|discriminate].
  intros [= <-] [= <-] Hneq.
  rewrite (draw_matches_run pic_1 pic_2 H1 H2).
  destruct (Matcher.size_eqb _ _) eqn:Heq; [|reflexivity].
  now apply size_eqb_eq in Heq.
Qed.

(** Past the assertion: either the composite comes back, twice as wide as
    the first frame, as high, and with a link for every match of the
    slice, or OpenCV rejected a call. *)
Lemma draw_matches_past_assert (width height : Z) :
  fst (Frame.get_size img_1 w) = Py.Return (width, height) ->
  fst (Frame.get_size img_2 w) = Py.Return (width, height) ->
  (exists w',
      Matcher.draw_matches img_1 img_2 matches limit w
      = (Py.Return {| cv2.cols := width * 2; cv2.rows := height;
                      cv2.links := Py.slice_to matches limit |}, w')) \/
  (exists w',
      Matcher.draw_matches img_1 img_2 matches limit w
      = (Py.Raise Py.cv2_error, w')).
Proof.
  rewrite !get_size_run; cbn [fst].
  destruct (Py.files w (Frame.color_path img_1)) as [pic_1|] eqn:H1; [|discriminate].
  destruct (Py.files w (Frame.color_path img_2)) as [pic_2|] eqn:H2; [|discriminate].
  intros [= <- <-] [= Hw Hh].
  rewrite (draw_matches_run pic_1 pic_2 H1 H2), Hw, Hh.
  replace (Matcher.size_eqb _ _) with true by (symmetry; now apply size_eqb_eq).
  match goal with
  | |- context [cv2.drawMatches ?a ?k1 ?b ?k2 ?ms ?p ?w0] =>
      destruct (drawMatches_cases a b k1 k2 ms p w0 eq_refl)
        as [(img & -> & Hlinks) | ->]
  end; [|right; eauto].
  match goal with
  | |- context [cv2.resize ?src (?a, ?b) ?w0] =>
      destruct (resize_cases src a b w0) as [-> | ->]
  end; [left | right; eauto].
  rewrite Hlinks; eauto.
Qed.


End DrawMatches.

(** A slice only holds elements of the list it was cut from. *)
Lemma slice_to_incl {A : Type} (a : list A) (stop : Z) (x : A) :
  In x (Py.slice_to a stop) -> In x a.
Proof.
  unfold Py.slice_to; generalize (Z.to_nat
    (if (stop <? 0)%Z then Z.max 0 (stop + Z.of_nat (List.length a))
     else Z.min stop (Z.of_nat (List.length a)))) as n.
  intros n; revert a; induction n as [|n IH]; intros [|y a]; simpl; try tauto.
  intros [-> | Hin]; auto.
Qed.

(** [matches[:-1]] is the list without its last element. *)
Lemma slice_to_default_limit {A : Type} (a : list A) :
  Py.slice_to a Matcher.default_limit = removelast a.
Proof.
  unfold Py.slice_to, Matcher.default_limit.
  change (-1 <? 0)%Z with true; cbv iota.
  rewrite removelast_firstn_len; f_equal.
  destruct a as [|x a]; [reflexivity|].
  cbn [List.length]; lia.
Qed.

(** With a limit that is not negative, the slice has [limit] elements, or
    all of them when there are fewer. *)
Lemma slice_to_nonneg {A : Type} (a : list A) (limit : Z) :
  (0 <= limit)%Z ->
  Py.slice_to a limit = firstn (Z.to_nat limit) a.
Proof.
  intros Hpos; unfold Py.slice_to.
  destruct (limit <? 0)%Z eqn:Hneg; [lia|].
  destruct (Z.le_ge_cases limit (Z.of_nat (List.length a))) as [Hle | Hge].
  - now rewrite Z.min_l.
  - rewrite Z.min_r, Nat2Z.id, firstn_all by assumption.
    symmetry; apply firstn_all2; lia.
Qed.

(** Whatever [draw_matches] returns carries a link for exactly the matches
    of the slice [matches[:limit]], and has the size of two first frames
    side by side; the second frame has the size of the first. *)
Lemma draw_matches_returned (img_1 img_2 : Frame.t) (matches : list DMatch)
    (limit : Z) (w w' : Py.world) (img : cv2.Mat) :
  Matcher.draw_matches img_1 img_2 matches limit w = (Py.Return img, w') ->
  exists width height,
    fst (Frame.get_size img_1 w) = Py.Return (width, height) /\
    fst (Frame.get_size img_2 w) = Py.Return (width, height) /\
    img = {| cv2.cols := width * 2; cv2.rows := height;
             cv2.links := Py.slice_to matches limit |}.
Proof.
  intros Hrun.
  destruct (Py.files w (Frame.color_path img_1)) as [pic_1|] eqn:H1.
  2:{ revert Hrun; unfold Matcher.draw_matches, Py.bind.
      rewrite get_size_run, H1; discriminate. }
  destruct (Py.files w (Frame.color_path img_2)) as [pic_2|] eqn:H2.
  2:{ revert Hrun; unfold Matcher.draw_matches, Py.bind.
      rewrite !get_size_run, H1; cbn [Py.files Py.having_loaded].
      rewrite H2; discriminate. }
  exists (Py.pic_width pic_1), (Py.pic_height pic_1).
  assert (Hsize_1 : fst (Frame.get_size img_1 w)
                    = Py.Return (Py.pic_width pic_1, Py.pic_height pic_1))
    by (now rewrite get_size_run, H1).
  assert (Hsize_2 : fst (Frame.get_size img_2 w)
                    = Py.Return (Py.pic_width pic_2, Py.pic_height pic_2))
    by (now rewrite get_size_run, H2).
  destruct (Matcher.size_eqb (Py.pic_width pic_1, Py.pic_height pic_1)
                             (Py.pic_width pic_2, Py.pic_height pic_2)) eqn:Heq.
  - apply size_eqb_eq in Heq; rewrite <- Heq in Hsize_2.
    repeat split; try assumption.
    destruct (draw_matches_past_assert img_1 img_2 matches limit w _ _
                Hsize_1 Hsize_2) as [[w0 Hok] | [w0 Hko]];
      rewrite Hrun in *; congruence.
  - rewrite (draw_matches_run img_1 img_2 matches limit w pic_1 pic_2 H1 H2), Heq
      in Hrun; discriminate.
Qed.

(** A call that meets what OpenCV asks for returns: both colour files on
    disk with the same, non-empty size, and the indices of the matches to
    draw pointing into the key points of the frames (a frame without key
    points has none to point into). *)
Lemma draw_matches_returns (img_1 img_2 : Frame.t) (matches : list DMatch)
    (limit : Z) (w : Py.world) (pic : Py.picture) :
  Py.files w (Frame.color_path img_1) = Some pic ->
  Py.files w (Frame.color_path img_2) = Some pic ->
  (0 < Py.pic_width pic)%Z ->
  (0 < Py.pic_height pic)%Z ->
  Forall (fun m =>
            (0 <= queryIdx m
             < Z.of_nat (List.length (cv2.key_point_list (Frame.key_points img_1))))%Z /\
            (0 <= trainIdx m
             < Z.of_nat (List.length (cv2.key_point_list (Frame.key_points img_2))))%Z)
         (Py.slice_to matches limit) ->
  exists img w', Matcher.draw_matches img_1 img_2 matches limit w = (Py.Return img, w').
Proof.
  intros H1 H2 Hw Hh Hidx.
  rewrite (draw_matches_run img_1 img_2 matches limit w pic pic H1 H2).
  replace (Matcher.size_eqb _ _) with true by (symmetry; now apply size_eqb_eq).
  unfold cv2.drawMatches.
  replace (forallb _ (Py.slice_to matches limit)) with true.
  - unfold cv2.resize, Py.ret.
    replace ((0 <? Py.pic_width pic * 2)%Z && (0 <? Py.pic_height pic)%Z) with true
      by (symmetry; apply andb_true_iff; split; apply Z.ltb_lt; lia).
    eauto.
  - symmetry; apply forallb_forall; intros m Hin.
    rewrite Forall_forall in Hidx; specialize (Hidx m Hin).
    unfold cv2.in_range; rewrite !andb_true_iff, !Z.leb_le, !Z.ltb_lt; lia.
Qed.

(** C6. Once both frames have reported their size, [draw_matches] raises
    [AssertionError] when the two sizes differ, before anything else is
    read or drawn, and does not raise it when they are equal. *)
Theorem draw_matches_size_assertion (img_1 img_2 : Frame.t)
    (matches : list DMatch) (limit : Z) (w : Py.world) (size_1 size_2 : Z * Z) :
  fst (Frame.get_size img_1 w) = Py.Return size_1 ->
  fst (Frame.get_size img_2 w) = Py.Return size_2 ->
  (size_1 <> size_2 ->
   Matcher.draw_matches img_1 img_2 matches limit w
   = (Py.Raise Py.AssertionError, Spec.sizes_read img_1 img_2 w)) /\
  (size_1 = size_2 ->
   fst (Matcher.draw_matches img_1 img_2 matches limit w)
   <> Py.Raise Py.AssertionError).
Proof.
  intros H1 H2; split.
  - now apply draw_matches_assert.
  - intros <-; destruct size_1 as [width height].
    destruct (draw_matches_past_assert img_1 img_2 matches limit w width height
                H1 H2) as [[w' ->] | [w' ->]]; discriminate.
Qed.

Lemma draw_matches_size_assertion_witness :
  Matcher.draw_matches Sample.frame_a Sample.frame_wide Sample.seven_matches 5
                       Sample.fresh
  = (Py.Raise Py.AssertionError,
     Spec.sizes_read Sample.frame_a Sample.frame_wide Sample.fresh) /\
  fst (Matcher.draw_matches Sample.frame_a Sample.frame_b Sample.seven_matches 5
                            Sample.fresh)
  <> Py.Raise Py.AssertionError.
Proof.
  split.
  - apply (draw_matches_size_assertion Sample.frame_a Sample.frame_wide
             Sample.seven_matches 5 Sample.fresh (100, 100)%Z (120, 100)%Z);
      [reflexivity | reflexivity | discriminate].
  - apply (draw_matches_size_assertion Sample.frame_a Sample.frame_b
             Sample.seven_matches 5 Sample.fresh (100, 100)%Z (100, 100)%Z);
      reflexivity.
Defined.

(** C7. The image [draw_matches] returns is exactly twice as wide as the
    first frame and as high, and the second frame has that same size; on
    two 100x100 frames with [limit = 5] that is 200x100. *)
Theorem draw_matches_composite_size (img_1 img_2 : Frame.t)
    (matches : list DMatch) (limit : Z) (w w' : Py.world) (img : cv2.Mat)
    (width height : Z) :
  Matcher.draw_matches img_1 img_2 matches limit w = (Py.Return img, w') ->
  fst (Frame.get_size img_1 w) = Py.Return (width, height) ->
  cv2.cols img = (2 * width)%Z /\
  cv2.rows img = height /\
  fst (Frame.get_size img_2 w) = Py.Return (width, height).
Proof.
  intros Hrun Hsize.
  destruct (draw_matches_returned img_1 img_2 matches limit w w' img Hrun)
    as (width' & height' & H1 & H2 & ->).
  rewrite Hsize in H1; injection H1 as <- <-.
  split; [cbn [cv2.cols]; lia | split; [reflexivity | assumption]].
Qed.

Lemma draw_matches_composite_size_witness :
  exists img w',
    Matcher.draw_matches Sample.frame_a Sample.frame_b Sample.seven_matches 5
                         Sample.fresh = (Py.Return img, w') /\
    cv2.cols img = 200%Z /\ cv2.rows img = 100%Z /\
    fst (Frame.get_size Sample.frame_b Sample.fresh) = Py.Return (100, 100)%Z.
Proof.
  exists (Sample.composite (firstn 5 Sample.seven_matches)), Sample.after_drawing.
  split; [reflexivity|].
  apply (draw_matches_composite_size Sample.frame_a Sample.frame_b
           Sample.seven_matches 5 Sample.fresh Sample.after_drawing
           (Sample.composite (firstn 5 Sample.seven_matches)) 100 100);
    reflexivity.
Defined.

(** C3. With the default limit, [draw_matches] does not draw every match
    it is given: the slice [matches[:-1]] leaves the last one out. Given
    three matches, the composite carries a link for the first two only. *)
Theorem draw_matches_default_limit_drops_last :
  exists img w',
    Matcher.draw_matches Sample.frame_a Sample.frame_b
      [Sample.near_0; Sample.near_1; Sample.near_2] Matcher.default_limit
      Sample.fresh = (Py.Return img, w') /\
    cv2.links img = [Sample.near_0; Sample.near_1].
Proof.
  exists (Sample.composite [Sample.near_0; Sample.near_1]), Sample.after_drawing.
  split; reflexivity.
Qed.

(** In general, the default limit draws all matches but the last. *)
Lemma draw_matches_default_limit (img_1 img_2 : Frame.t) (matches : list DMatch)
    (w w' : Py.world) (img : cv2.Mat) :
  Matcher.draw_matches img_1 img_2 matches Matcher.default_limit w
  = (Py.Return img, w') ->
  cv2.links img = removelast matches.
Proof.
  intros Hrun.
  destruct (draw_matches_returned img_1 img_2 matches _ w w' img Hrun)
    as (width & height & _ & _ & ->).
  apply slice_to_default_limit.
Qed.

(** A limit that is not negative draws the first [limit] matches. *)
Lemma draw_matches_limit (img_1 img_2 : Frame.t) (matches : list DMatch)
    (limit : Z) (w w' : Py.world) (img : cv2.Mat) :
  (0 <= limit)%Z ->
  Matcher.draw_matches img_1 img_2 matches limit w = (Py.Return img, w') ->
  cv2.links img = firstn (Z.to_nat limit) matches.
Proof.
  intros Hpos Hrun.
  destruct (draw_matches_returned img_1 img_2 matches _ w w' img Hrun)
    as (width & height & _ & _ & ->).
  now apply slice_to_nonneg.
Qed.

(* ------------------------------------------------------------------ *)
(** * More on the constructor of [Matcher]                              *)
(* ------------------------------------------------------------------ *)

(** X1. The constructor never raises and never touches the disk; it keeps
    [num_features] and [filter_test] as given whatever the method; it
    configures a [core] exactly when the method is ['FLANN'], and then
    prints nothing; with any other method every [match] on the result
    fails with [AttributeError]. *)
Theorem init_core_iff_flann (num_features : Z) (method : string)
    (search_algorithm : Z) (filter_test : float) (w : Py.world) :
  exists self w',
    Matcher.__init__ num_features method search_algorithm filter_test w
    = (Py.Return self, w') /\
    Matcher.num_features self = num_features /\
    Matcher.filter_test self = filter_test /\
    (Matcher.core self <> None <-> method = Matcher.FLANN) /\
    Py.files w' = Py.files w /\ Py.loaded w' = Py.loaded w /\
    (method = Matcher.FLANN -> w' = w) /\
    (method <> Matcher.FLANN ->
     forall (E : cv2.FlannEngine) (img_1 img_2 : Frame.t) (w0 : Py.world),
       Matcher.match_ self img_1 img_2 w0 = (Py.Raise Py.AttributeError, w0)).
Proof.
  unfold Matcher.__init__.
  destruct (String.eqb_spec method Matcher.FLANN) as [Hflann | Hflann].
  - eexists; eexists; split; [reflexivity|]; cbn.
    repeat split; try easy.
  - destruct (String.eqb method Matcher.DNN);
      (eexists; eexists; split; [reflexivity|]; cbn;
       repeat split; try easy; intros Hcore; now contradiction Hcore).
Qed.

(** X2. With the method ['DNN'] the constructor prints its own notice,
    ['DNN matcher to be done yet...'], raises nothing and returns a matcher
    without a [core], so that [match] fails with [AttributeError]. *)
Theorem init_dnn (num_features : Z) (search_algorithm : Z)
    (filter_test : float) (w : Py.world) :
  exists self,
    Matcher.__init__ num_features Matcher.DNN search_algorithm filter_test w
    = (Py.Return self,
       Py.printed w (Matcher.red "DNN matcher to be done yet...")) /\
    Matcher.core self = None /\
    forall (E : cv2.FlannEngine) (img_1 img_2 : Frame.t) (w0 : Py.world),
      Matcher.match_ self img_1 img_2 w0 = (Py.Raise Py.AttributeError, w0).
Proof. eexists; repeat split. Qed.

(** X3. A matcher built with ['FLANN'] matches with the threshold it was
    built with: when the search of its engine answers [raw], [match]
    returns the best candidates of [raw] accepted under the constructor's
    [filter_test], and neither step printed or read anything. *)
Theorem init_then_match (E : cv2.FlannEngine) (num_features search_algorithm : Z)
    (filter_test : float) (img_1 img_2 : Frame.t) (w w1 : Py.world)
    (self : Matcher.t) (engine : cv2.FlannBasedMatcher)
    (raw : list (list DMatch)) :
  Matcher.__init__ num_features Matcher.FLANN search_algorithm filter_test w
  = (Py.Return self, w1) ->
  Matcher.core self = Some engine ->
  cv2.knnMatch engine (Frame.descriptors img_1) (Frame.descriptors img_2) 2
  = Py.Return raw ->
  Matcher.match_ self img_1 img_2 w1
  = (Py.Return (Some (Spec.accepted_best filter_test raw)), w).
Proof.
  intros Hinit Hcore Hknn.
  rewrite (match_run_ok self img_1 img_2 w1 engine raw Hcore Hknn).
  unfold Matcher.__init__ in Hinit; cbn in Hinit.
  injection Hinit as <- <-; reflexivity.
Qed.

Lemma init_then_match_witness :
  @Matcher.match_ (Sample.answering Sample.raw_answer) Sample.flann_50
                  Sample.frame_a Sample.frame_b Sample.fresh
  = (Py.Return (Some (Spec.accepted_best 0.7 Sample.raw_answer)), Sample.fresh).
Proof.
  apply (init_then_match (Sample.answering Sample.raw_answer) 50 6 0.7
           Sample.frame_a Sample.frame_b Sample.fresh Sample.fresh
           Sample.flann_50 Sample.engine_50 Sample.raw_answer);
    reflexivity.
Defined.

(* ------------------------------------------------------------------ *)
(** * More on the filter                                                *)
(* ------------------------------------------------------------------ *)

Lemma length_kept (filter_test : float) (x : list DMatch) :
  (List.length (Spec.kept filter_test x) <= 1)%nat.
Proof.
  unfold Spec.kept.
  destruct (Spec.two_candidates x && Spec.ratio_test filter_test x); simpl; [|lia].
  destruct x; simpl; lia.
Qed.

Lemma length_flat_map_kept (filter_test : float) (raw : list (list DMatch)) :
  (List.length (flat_map (Spec.kept filter_test) raw) <= List.length raw)%nat.
Proof.
  induction raw as [|x raw IH]; simpl; [lia|].
  rewrite length_app; pose proof (length_kept filter_test x); lia.
Qed.

(** X4. [_filter] never raises, whatever list it is given, and never reads
    a file: either it returns a list and the world is as before, or it
    returns no value and exactly its one diagnostic line was printed. *)
Theorem filter_never_raises (matches : list (list DMatch)) (filter_test : float)
    (w : Py.world) :
  (exists good,
      Matcher._filter matches filter_test w = (Py.Return (Some good), w)) \/
  Matcher._filter matches filter_test w
  = (Py.Return None, Py.printed w (Matcher.red "Filter matching error")).
Proof.
  rewrite _filter_run.
  destruct (forallb Spec.two_candidates matches); eauto.
Qed.

(** X5. The list [_filter] returns holds at most one match per candidate
    pair, and it is a subsequence of the first elements of the pairs: the
    order of the input is kept and nothing is duplicated or invented. *)
Theorem filter_subsequence_and_count (matches : list (list DMatch))
    (filter_test : float) (w w' : Py.world) (good : list DMatch) :
  Matcher._filter matches filter_test w = (Py.Return (Some good), w') ->
  Spec.subsequence good (Spec.best_candidates matches) /\
  (List.length good <= List.length matches)%nat.
Proof.
  rewrite _filter_run.
  destruct (forallb Spec.two_candidates matches); [|discriminate].
  intros [= <- _]; split.
  - rewrite flat_map_kept_accepted; apply subsequence_flat_map_filter.
  - apply length_flat_map_kept.
Qed.

Lemma filter_subsequence_and_count_witness :
  Spec.subsequence [Sample.near_0; Sample.near_2]
                   (Spec.best_candidates Sample.pairs) /\
  (List.length [Sample.near_0; Sample.near_2] <= List.length Sample.pairs)%nat.
Proof.
  apply (filter_subsequence_and_count Sample.pairs 0.7 Sample.fresh Sample.fresh
           [Sample.near_0; Sample.near_2]).
  reflexivity.
Defined.

(** X6. Filtering is done pair by pair: when [_filter] returns a list on
    each of two candidate lists, on their concatenation it returns the
    concatenation of the two lists. *)
Theorem filter_app (a b : list (list DMatch)) (filter_test : float)
    (w wa wb : Py.world) (good_a good_b : list DMatch) :
  Matcher._filter a filter_test w = (Py.Return (Some good_a), wa) ->
  Matcher._filter b filter_test w = (Py.Return (Some good_b), wb) ->
  Matcher._filter (a ++ b)%list filter_test w
  = (Py.Return (Some (good_a ++ good_b)%list), w).
Proof.
  rewrite !_filter_run, forallb_app.
  destruct (forallb Spec.two_candidates a); [|discriminate].
  destruct (forallb Spec.two_candidates b); [|discriminate].
  intros [= <- _] [= <- _]; cbn [andb].
  now rewrite flat_map_app.
Qed.

Lemma filter_app_witness :
  Matcher._filter ([[Sample.near_0; Sample.far_0]] ++ [[Sample.near_2; Sample.far_2]])%list
                  0.7 Sample.fresh
  = (Py.Return (Some ([Sample.near_0] ++ [Sample.near_2])%list), Sample.fresh).
Proof.
  apply (filter_app [[Sample.near_0; Sample.far_0]] [[Sample.near_2; Sample.far_2]]
           0.7 Sample.fresh Sample.fresh Sample.fresh); reflexivity.
Defined.

(* ------------------------------------------------------------------ *)
(** * More on [Matcher.match]                                           *)
(* ------------------------------------------------------------------ *)

(** X7. [match] prints nothing and reads no file, whether it returns or
    raises, and it never returns no value: the handler of [_filter] cannot
    run inside [match], which hands it pairs only. *)
Theorem match_silent_never_none (E : cv2.FlannEngine) (self : Matcher.t)
    (img_1 img_2 : Frame.t) (w : Py.world) :
  snd (Matcher.match_ self img_1 img_2 w) = w /\
  fst (Matcher.match_ self img_1 img_2 w) <> Py.Return None.
Proof.
  destruct (Matcher.core self) as [engine|] eqn:Hcore.
  - destruct (cv2.knnMatch engine (Frame.descriptors img_1)
                (Frame.descriptors img_2) 2) as [raw|e] eqn:Hknn.
    + rewrite (match_run_ok self img_1 img_2 w engine raw Hcore Hknn).
      split; [reflexivity | discriminate].
    + unfold Matcher.match_, Py.bind, Py.lift; rewrite Hcore, Hknn.
      split; [reflexivity | discriminate].
  - rewrite (match_without_core self img_1 img_2 w Hcore).
    split; [reflexivity | discriminate].
Qed.

(** X8. An exception of the search is not caught by [match]: it reaches
    the caller as it is, and the filter does not run. *)
Theorem match_propagates_search_error (E : cv2.FlannEngine) (self : Matcher.t)
    (img_1 img_2 : Frame.t) (w : Py.world) (engine : cv2.FlannBasedMatcher)
    (e : Py.exn) :
  Matcher.core self = Some engine ->
  cv2.knnMatch engine (Frame.descriptors img_1) (Frame.descriptors img_2) 2
  = Py.Raise e ->
  Matcher.match_ self img_1 img_2 w = (Py.Raise e, w).
Proof.
  intros Hcore Hknn; unfold Matcher.match_, Py.bind, Py.lift.
  now rewrite Hcore, Hknn.
Qed.

Lemma match_propagates_search_error_witness :
  @Matcher.match_ Sample.failing Sample.flann_50 Sample.frame_a Sample.frame_b
                  Sample.fresh
  = (Py.Raise Py.cv2_error, Sample.fresh).
Proof.
  apply (match_propagates_search_error Sample.failing Sample.flann_50
           Sample.frame_a Sample.frame_b Sample.fresh Sample.engine_50
           Py.cv2_error);
    reflexivity.
Defined.

(** X9. [match] returns at most one match per query that found exactly
    two candidates, hence no more matches than the search answered
    queries. *)
Theorem match_count (E : cv2.FlannEngine) (self : Matcher.t)
    (img_1 img_2 : Frame.t) (w w' : Py.world) (engine : cv2.FlannBasedMatcher)
    (raw : list (list DMatch)) (good : list DMatch) :
  Matcher.core self = Some engine ->
  cv2.knnMatch engine (Frame.descriptors img_1) (Frame.descriptors img_2) 2
  = Py.Return raw ->
  Matcher.match_ self img_1 img_2 w = (Py.Return (Some good), w') ->
  (List.length good <= List.length (filter Spec.two_candidates raw))%nat /\
  (List.length (filter Spec.two_candidates raw) <= List.length raw)%nat.
Proof.
  intros Hcore Hknn Hrun.
  rewrite (match_run_ok self img_1 img_2 w engine raw Hcore Hknn) in Hrun.
  injection Hrun as Hgood _; subst good; split.
  - rewrite <- flat_map_kept_accepted, <- kept_filter_two.
    apply length_flat_map_kept.
  - apply filter_length_le.
Qed.

Lemma match_count_witness :
  (List.length [Sample.near_0; Sample.near_2]
   <= List.length (filter Spec.two_candidates Sample.raw_answer))%nat /\
  (List.length (filter Spec.two_candidates Sample.raw_answer)
   <= List.length Sample.raw_answer)%nat.
Proof.
  apply (match_count (Sample.answering Sample.raw_answer) Sample.flann_50
           Sample.frame_a Sample.frame_b Sample.fresh Sample.fresh
           Sample.engine_50 Sample.raw_answer [Sample.near_0; Sample.near_2]);
    reflexivity.
Defined.

(* ------------------------------------------------------------------ *)
(** * What the operations do to the world                               *)
(* ------------------------------------------------------------------ *)

Section Effects.

Variable allowed : list string.

Lemma reads_within_refl (w : Py.world) : Effects.reads_within allowed w w.
Proof.
  repeat split; exists []; split; [now rewrite app_nil_r | easy].
Qed.

Lemma reads_within_trans (w1 w2 w3 : Py.world) :
  Effects.reads_within allowed w1 w2 ->
  Effects.reads_within allowed w2 w3 ->
  Effects.reads_within allowed w1 w3.
Proof.
  intros (Hf1 & Ho1 & l1 & Hl1 & Hin1) (Hf2 & Ho2 & l2 & Hl2 & Hin2).
  repeat split; [congruence | congruence |].
  exists (l1 ++ l2)%list; split.
  - now rewrite Hl2, Hl1, app_assoc.
  - now apply incl_app.
Qed.

Lemma reads_within_loaded (w : Py.world) (path : string) :
  In path allowed -> Effects.reads_within allowed w (Py.having_loaded w path).
Proof.
  intros Hin; repeat split; exists [path]; split; [reflexivity|].
  intros p [<- | []]; assumption.
Qed.

Lemma io_within_ret {A : Type} (a : A) : Effects.io_within allowed (Py.ret a).
Proof. intros w; apply reads_within_refl. Qed.

Lemma io_within_raise {A : Type} (e : Py.exn) :
  Effects.io_within allowed (@Py.raise A e).
Proof. intros w; apply reads_within_refl. Qed.

Lemma io_within_bind {A B : Type} (c : Py.M A) (k : A -> Py.M B) :
  Effects.io_within allowed c ->
  (forall a, Effects.io_within allowed (k a)) ->
  Effects.io_within allowed (Py.bind c k).
Proof.
  intros Hc Hk w; unfold Py.bind; specialize (Hc w).
  destruct (c w) as [[a | e] w1]; [|exact Hc].
  eapply reads_within_trans; [exact Hc | apply Hk].
Qed.

Lemma io_within_load (path : string) :
  In path allowed -> Effects.io_within allowed (Py.load path).
Proof. intros Hin w; now apply reads_within_loaded. Qed.

Lemma io_within_assert (b : bool) : Effects.io_within allowed (Py.assert b).
Proof. destruct b; [apply io_within_ret | apply io_within_raise]. Qed.

Lemma io_within_open (path : string) :
  In path allowed -> Effects.io_within allowed (PIL.open path).
Proof.
  intros Hin; apply io_within_bind; [now apply io_within_load|].
  intros [pic|]; [apply io_within_ret | apply io_within_raise].
Qed.

Lemma io_within_imread (path : string) :
  In path allowed -> Effects.io_within allowed (cv2.imread path).
Proof.
  intros Hin; apply io_within_bind; [now apply io_within_load|].
  intros [pic|]; apply io_within_ret.
Qed.

Lemma io_within_drawMatches (img1 img2 : option cv2.Mat)
    (kp1 kp2 : option (list KeyPoint)) (ms : list DMatch)
    (params : cv2.draw_params) :
  Effects.io_within allowed (cv2.drawMatches img1 kp1 img2 kp2 ms params).
Proof.
  unfold cv2.drawMatches.
  destruct img1, img2; try apply io_within_raise.
  destruct (forallb _ ms); [apply io_within_ret | apply io_within_raise].
Qed.

Lemma io_within_resize (src : cv2.Mat) (dsize : Z * Z) :
  Effects.io_within allowed (cv2.resize src dsize).
Proof.
  destruct dsize as [width height]; unfold cv2.resize.
  destruct ((0 <? width)%Z && (0 <? height)%Z);
    [apply io_within_ret | apply io_within_raise].
Qed.

Lemma io_within_get_size (self : Frame.t) :
  In (Frame.color_path self) allowed ->
  Effects.io_within allowed (Frame.get_size self).
Proof.
  intros Hin; apply io_within_bind; [now apply io_within_open|].
  intros img; apply io_within_ret.
Qed.

Variable lines : list string.

Lemma logs_within_refl (w : Py.world) : Effects.logs_within allowed lines w w.
Proof.
  split; [reflexivity | split]; exists []; (split; [now rewrite app_nil_r | easy]).
Qed.

Lemma logs_within_loaded (w w1 : Py.world) (path : string) :
  Effects.logs_within allowed lines w w1 ->
  In path allowed ->
  Effects.logs_within allowed lines w (Py.having_loaded w1 path).
Proof.
  intros (Hfiles & Hout & paths & Hpaths & Hincl) Hin.
  split; [assumption | split; [assumption|]].
  exists (paths ++ [path])%list; split.
  - cbn [Py.loaded Py.having_loaded]; now rewrite Hpaths, app_assoc.
  - apply incl_app; [assumption | intros p [<- | []]; assumption].
Qed.

Lemma logs_within_printed (w w1 : Py.world) (line : string) :
  Effects.logs_within allowed lines w w1 ->
  In line lines ->
  Effects.logs_within allowed lines w (Py.printed w1 line).
Proof.
  intros (Hfiles & (out & Hout & Hincl) & Hpaths) Hin.
  split; [assumption | split; [|assumption]].
  exists (out ++ [line])%list; split.
  - cbn [Py.stdout Py.printed]; now rewrite Hout, app_assoc.
  - apply incl_app; [assumption | intros p [<- | []]; assumption].
Qed.

End Effects.

Lemma io_within_weaken {A : Type} (small large : list string) (c : Py.M A) :
  incl small large -> Effects.io_within small c -> Effects.io_within large c.
Proof.
  intros Hincl Hc w; destruct (Hc w) as (Hf & Ho & l & Hl & Hin).
  repeat split; try assumption.
  exists l; split; [assumption | now apply incl_tran with small].
Qed.

(** One step through a computation built from the loaders and [bind]. *)
Ltac io_step :=
  first [ assumption
        | apply io_within_get_size
        | apply io_within_open
        | apply io_within_imread
        | apply io_within_ret
        | apply io_within_raise
        | apply io_within_assert
        | apply io_within_drawMatches
        | apply io_within_resize
        | apply io_within_bind; [|intros ?] ].

(* ------------------------------------------------------------------ *)
(** * More on [Frame]                                                   *)
(* ------------------------------------------------------------------ *)

(** X10. Whatever the selector and whatever the outcome, each of the three
    getters leaves the disk alone and hands to its loader no path other
    than the frame's own colour and depth paths. The PIL and OpenCV
    getters print nothing; the Open3D getter prints nothing but Open3D's
    warnings about the frame's own files. *)
Theorem getters_read_own_paths (L : o3d.Logger) (self : Frame.t)
    (ret : option string) :
  Effects.io_within (Effects.paths_of self) (Frame.get_pil_images self ret) /\
  Effects.io_within (Effects.paths_of self) (Frame.get_cv2_images self ret) /\
  forall w,
    Effects.logs_within (Effects.paths_of self)
                        (map o3d.read_failed (Effects.paths_of self))
                        w (snd (Frame.get_o3d_images self ret w)).
Proof.
  assert (Hc : In (Frame.color_path self) (Effects.paths_of self)) by (left; reflexivity).
  assert (Hd : In (Frame.depth_path self) (Effects.paths_of self))
    by (right; left; reflexivity).
  unfold Frame.get_pil_images, Frame.get_o3d_images, Frame.get_cv2_images.
  destruct ret as [ret|]; [destruct (Frame.ret_is (Some ret) "rgb");
                           [|destruct (Frame.ret_is (Some ret) "depth")]|];
    (split; [|split]); try (repeat io_step; fail);
    intros w; unfold o3d.read_image, Py.bind, Py.load, Py.print; cbn;
    repeat (match goal with
            | |- context [Py.files ?w0 ?p] => destruct (Py.files w0 p)
            end; cbn);
    repeat first [ apply logs_within_refl
                 | apply logs_within_loaded
                 | apply logs_within_printed ];
    cbn; auto.
Qed.

(** X11. The selector decides which files are read: with ["rgb"] each
    getter hands exactly the colour path to its loader and never the depth
    path, with ["depth"] exactly the depth path; with no selector the
    OpenCV and Open3D getters read the colour file first and the depth
    file second. *)
Theorem getters_select (L : o3d.Logger) (self : Frame.t) (w : Py.world) :
  (Py.loaded (snd (Frame.get_pil_images self (Some "rgb") w))
     = (Py.loaded w ++ [Frame.color_path self])%list /\
   Py.loaded (snd (Frame.get_o3d_images self (Some "rgb") w))
     = (Py.loaded w ++ [Frame.color_path self])%list /\
   Py.loaded (snd (Frame.get_cv2_images self (Some "rgb") w))
     = (Py.loaded w ++ [Frame.color_path self])%list) /\
  (Py.loaded (snd (Frame.get_pil_images self (Some "depth") w))
     = (Py.loaded w ++ [Frame.depth_path self])%list /\
   Py.loaded (snd (Frame.get_o3d_images self (Some "depth") w))
     = (Py.loaded w ++ [Frame.depth_path self])%list /\
   Py.loaded (snd (Frame.get_cv2_images self (Some "depth") w))
     = (Py.loaded w ++ [Frame.depth_path self])%list) /\
  (Py.loaded (snd (Frame.get_o3d_images self None w))
     = (Py.loaded w ++ [Frame.color_path self; Frame.depth_path self])%list /\
   Py.loaded (snd (Frame.get_cv2_images self None w))
     = (Py.loaded w ++ [Frame.color_path self; Frame.depth_path self])%list).
Proof.
  unfold Frame.get_pil_images, Frame.get_o3d_images, Frame.get_cv2_images,
    PIL.open, o3d.read_image, cv2.imread, Py.bind, Py.load, Py.print; cbn.
  repeat split;
    repeat (match goal with
            | |- context [Py.files ?w0 ?p] => destruct (Py.files w0 p)
            end; cbn);
    try reflexivity; now rewrite <- app_assoc.
Qed.

(** X12. With no selector, or with ["rgb"], the PIL getter raises
    [FileNotFoundError] when the colour file is missing, and it has not
    tried the depth file by then. *)
Theorem get_pil_images_missing_color (self : Frame.t) (w : Py.world) :
  Py.files w (Frame.color_path self) = None ->
  Frame.get_pil_images self None w
  = (Py.Raise Py.FileNotFoundError, Py.having_loaded w (Frame.color_path self)) /\
  Frame.get_pil_images self (Some "rgb") w
  = (Py.Raise Py.FileNotFoundError, Py.having_loaded w (Frame.color_path self)).
Proof.
  intros Hnone.
  unfold Frame.get_pil_images, PIL.open, Py.bind, Py.load; cbn.
  now rewrite Hnone.
Qed.

Lemma get_pil_images_missing_color_witness :
  Frame.get_pil_images Sample.frame_lost None Sample.fresh
  = (Py.Raise Py.FileNotFoundError,
     Py.having_loaded Sample.fresh "lost_rgb.png") /\
  Frame.get_pil_images Sample.frame_lost (Some "rgb") Sample.fresh
  = (Py.Raise Py.FileNotFoundError,
     Py.having_loaded Sample.fresh "lost_rgb.png").
Proof.
  apply (get_pil_images_missing_color Sample.frame_lost Sample.fresh).
  reflexivity.
Defined.

(** X13. [get_size] and the PIL getter agree: when [get_size] reports a
    size, [get_pil_images] with ["rgb"] returns an image of exactly that
    size, and when the getter raises, [get_size] raises the same; both
    open the colour file and nothing else. *)
Theorem get_size_agrees_with_pil (self : Frame.t) (w : Py.world) :
  (forall width height,
      fst (Frame.get_size self w) = Py.Return (width, height) ->
      fst (Frame.get_pil_images self (Some "rgb") w)
      = Py.Return (Frame.One {| PIL.im_size := (width, height) |})) /\
  (forall e,
      fst (Frame.get_pil_images self (Some "rgb") w) = Py.Raise e ->
      fst (Frame.get_size self w) = Py.Raise e) /\
  snd (Frame.get_size self w) = snd (Frame.get_pil_images self (Some "rgb") w).
Proof.
  rewrite get_size_run; cbn [fst snd].
  unfold Frame.get_pil_images, PIL.open, Py.bind, Py.load; cbn.
  destruct (Py.files w (Frame.color_path self)) as [pic|]; cbn.
  - split; [|split]; [intros width height [= <- <-] | intros e|]; easy.
  - split; [|split]; [intros width height | intros e [= <-] |]; easy.
Qed.

Lemma get_size_agrees_with_pil_witness :
  fst (Frame.get_pil_images Sample.frame_turned (Some "rgb") Sample.fresh)
  = Py.Return (Frame.One {| PIL.im_size := (120, 100)%Z |}) /\
  fst (Frame.get_size Sample.frame_lost Sample.fresh)
  = Py.Raise Py.FileNotFoundError.
Proof.
  split.
  - apply (proj1 (get_size_agrees_with_pil Sample.frame_turned Sample.fresh)
             120%Z 100%Z).
    reflexivity.
  - apply (proj1 (proj2 (get_size_agrees_with_pil Sample.frame_lost Sample.fresh))
             Py.FileNotFoundError).
    reflexivity.
Defined.

(* ------------------------------------------------------------------ *)
(** * More on [Matcher.draw_matches]                                    *)
(* ------------------------------------------------------------------ *)

(** However [draw_matches] ends, it made five reads at most. *)
Lemma draw_matches_loads_at_most (img_1 img_2 : Frame.t)
    (matches : list DMatch) (limit : Z) (w : Py.world) :
  (List.length (Py.loaded (snd (Matcher.draw_matches img_1 img_2 matches limit w)))
   <= List.length (Py.loaded w) + 5)%nat.
Proof.
  destruct (Py.files w (Frame.color_path img_1)) as [pic_1|] eqn:H1;
    [destruct (Py.files w (Frame.color_path img_2)) as [pic_2|] eqn:H2|].
  - rewrite (draw_matches_run img_1 img_2 matches limit w pic_1 pic_2 H1 H2).
    destruct (Matcher.size_eqb _ _).
    + match goal with
      | |- context [cv2.drawMatches ?a ?k1 ?b ?k2 ?ms ?p ?w0] =>
          destruct (drawMatches_cases a b k1 k2 ms p w0 eq_refl)
            as [(final_img & -> & _) | ->]
      end.
      * match goal with
        | |- context [cv2.resize ?src (?a, ?b) ?w0] =>
            destruct (resize_cases src a b w0) as [-> | ->]
        end; cbn; rewrite !length_app; cbn; lia.
      * cbn; rewrite !length_app; cbn; lia.
    + cbn; rewrite !length_app; cbn; lia.
  - unfold Matcher.draw_matches, Py.bind.
    rewrite !get_size_run, H1; cbn [Py.files Py.having_loaded]; rewrite H2.
    cbn; rewrite !length_app; cbn; lia.
  - unfold Matcher.draw_matches, Py.bind.
    rewrite get_size_run, H1; cbn; rewrite !length_app; cbn; lia.
Qed.

(** [draw_matches] is built from steps that only load colour paths. *)
Lemma draw_matches_io (img_1 img_2 : Frame.t)
    (matches : list DMatch) (limit : Z) :
  Effects.io_within [Frame.color_path img_1; Frame.color_path img_2]
                    (Matcher.draw_matches img_1 img_2 matches limit).
Proof.
  assert (H1 : In (Frame.color_path img_1)
                  [Frame.color_path img_1; Frame.color_path img_2])
    by (left; reflexivity).
  assert (H2 : In (Frame.color_path img_2)
                  [Frame.color_path img_1; Frame.color_path img_2])
    by (right; left; reflexivity).
  assert (Hrgb : forall self,
             In (Frame.color_path self)
                [Frame.color_path img_1; Frame.color_path img_2] ->
             Effects.io_within [Frame.color_path img_1; Frame.color_path img_2]
                               (Frame.get_cv2_images self (Some "rgb"))).
  { intros self Hin; unfold Frame.get_cv2_images; cbn; repeat io_step. }
  unfold Matcher.draw_matches.
  apply io_within_bind; [io_step; assumption | intros size_1].
  apply io_within_bind; [io_step; assumption | intros size_2].
  apply io_within_bind; [io_step | intros _].
  apply io_within_bind; [now apply Hrgb | intros rgb_1].
  apply io_within_bind; [now apply Hrgb | intros rgb_2].
  apply io_within_bind; [io_step | intros final_img].
  apply io_within_bind; [io_step; assumption | intros [width height]].
  io_step.
Qed.

(** X14. Whether it returns or raises, [draw_matches] prints nothing,
    leaves the disk alone, and reads no file other than the colour files
    of the two frames: a depth file is never opened, and at most five
    reads happen. *)
Theorem draw_matches_reads_colour_only (img_1 img_2 : Frame.t)
    (matches : list DMatch) (limit : Z) (w : Py.world) :
  Py.files (snd (Matcher.draw_matches img_1 img_2 matches limit w)) = Py.files w /\
  Py.stdout (snd (Matcher.draw_matches img_1 img_2 matches limit w)) = Py.stdout w /\
  exists paths,
    Py.loaded (snd (Matcher.draw_matches img_1 img_2 matches limit w))
    = (Py.loaded w ++ paths)%list /\
    (forall p, In p paths ->
               p = Frame.color_path img_1 \/ p = Frame.color_path img_2) /\
    (List.length paths <= 5)%nat.
Proof.
  destruct (draw_matches_io img_1 img_2 matches limit w)
    as (Hfiles & Hout & paths & Hpaths & Hincl).
  split; [assumption | split; [assumption|]].
  exists paths; split; [assumption | split].
  - intros p Hin; destruct (Hincl p Hin) as [<- | [<- | []]]; auto.
  - apply (f_equal (@List.length string)) in Hpaths.
    rewrite length_app in Hpaths.
    pose proof (draw_matches_loads_at_most img_1 img_2 matches limit w); lia.
Qed.

(** X15. [get_size] is repeatable: a second call reports what the first
    did, and so does a call made after [draw_matches] ran, whatever
    [draw_matches] did. *)
Theorem get_size_repeatable (self : Frame.t) (w : Py.world) :
  fst (Frame.get_size self (snd (Frame.get_size self w)))
  = fst (Frame.get_size self w) /\
  forall (img_1 img_2 : Frame.t) (matches : list DMatch) (limit : Z),
    fst (Frame.get_size self
           (snd (Matcher.draw_matches img_1 img_2 matches limit w)))
    = fst (Frame.get_size self w).
Proof.
  split.
  - now rewrite !get_size_run.
  - intros img_1 img_2 matches limit.
    destruct (draw_matches_io img_1 img_2 matches limit w) as (Hfiles & _).
    now rewrite !get_size_run, Hfiles.
Qed.

(** X16. A colour file that is missing makes [draw_matches] fail with
    [FileNotFoundError], not with the assertion: when it is the first
    frame's, at the first size query, with only that path tried; when the
    first frame's is there and the second frame's is missing, at the second
    size query; OpenCV has not been called by then. *)
Theorem draw_matches_missing_file (img_1 img_2 : Frame.t)
    (matches : list DMatch) (limit : Z) (w : Py.world) :
  (Py.files w (Frame.color_path img_1) = None ->
   Matcher.draw_matches img_1 img_2 matches limit w
   = (Py.Raise Py.FileNotFoundError,
      Py.having_loaded w (Frame.color_path img_1))) /\
  (Py.files w (Frame.color_path img_1) <> None ->
   Py.files w (Frame.color_path img_2) = None ->
   Matcher.draw_matches img_1 img_2 matches limit w
   = (Py.Raise Py.FileNotFoundError, Spec.sizes_read img_1 img_2 w)).
Proof.
  unfold Matcher.draw_matches, Py.bind; rewrite get_size_run.
  split.
  - now intros ->.
  - intros Hsome Hnone.
    destruct (Py.files w (Frame.color_path img_1)) as [pic_1|]; [|easy].
    rewrite get_size_run; cbn [Py.files Py.having_loaded]; now rewrite Hnone.
Qed.

Lemma draw_matches_missing_file_witness :
  Matcher.draw_matches Sample.frame_lost Sample.frame_a Sample.seven_matches 5
                       Sample.fresh
  = (Py.Raise Py.FileNotFoundError,
     Py.having_loaded Sample.fresh (Frame.color_path Sample.frame_lost)) /\
  Matcher.draw_matches Sample.frame_a Sample.frame_lost Sample.seven_matches 5
                       Sample.fresh
  = (Py.Raise Py.FileNotFoundError,
     Spec.sizes_read Sample.frame_a Sample.frame_lost Sample.fresh).
Proof.
  split.
  - apply (proj1 (draw_matches_missing_file Sample.frame_lost Sample.frame_a
                    Sample.seven_matches 5 Sample.fresh)).
    reflexivity.
  - apply (proj2 (draw_matches_missing_file Sample.frame_a Sample.frame_lost
                    Sample.seven_matches 5 Sample.fresh)).
    + discriminate.
    + reflexivity.
Defined.

(** X17. Nothing is cached: by the time [draw_matches] returns, the
    colour file of the first frame has been opened three times and that
    of the second twice, in the order size, size, image, image, size. *)
Theorem draw_matches_reopens_files (img_1 img_2 : Frame.t)
    (matches : list DMatch) (limit : Z) (w w' : Py.world) (img : cv2.Mat) :
  Matcher.draw_matches img_1 img_2 matches limit w = (Py.Return img, w') ->
  w' = Effects.having_loaded_all w
         [Frame.color_path img_1; Frame.color_path img_2;
          Frame.color_path img_1; Frame.color_path img_2;
          Frame.color_path img_1].
Proof.
  intros Hrun.
  destruct (draw_matches_returned img_1 img_2 matches limit w w' img Hrun)
    as (width & height & Hsize_1 & Hsize_2 & _).
  rewrite get_size_run in Hsize_1, Hsize_2; cbn [fst] in Hsize_1, Hsize_2.
  destruct (Py.files w (Frame.color_path img_1)) as [pic_1|] eqn:H1; [|discriminate].
  destruct (Py.files w (Frame.color_path img_2)) as [pic_2|] eqn:H2; [|discriminate].
  rewrite (draw_matches_run img_1 img_2 matches limit w pic_1 pic_2 H1 H2) in Hrun.
  destruct (Matcher.size_eqb _ _); [|discriminate].
  match type of Hrun with
  | context [cv2.drawMatches ?a ?k1 ?b ?k2 ?ms ?p ?w0] =>
      destruct (drawMatches_cases a b k1 k2 ms p w0 eq_refl)
        as [(final_img & Hdraw & _) | Hdraw]
  end; rewrite Hdraw in Hrun; [|discriminate].
  match type of Hrun with
  | context [cv2.resize ?src (?a, ?b) ?w0] =>
      destruct (resize_cases src a b w0) as [Hresize | Hresize]
  end; rewrite Hresize in Hrun; [|discriminate].
  now injection Hrun as _ <-.
Qed.

Lemma draw_matches_reopens_files_witness :
  Sample.after_drawing
  = Effects.having_loaded_all Sample.fresh
      [Frame.color_path Sample.frame_a; Frame.color_path Sample.frame_b;
       Frame.color_path Sample.frame_a; Frame.color_path Sample.frame_b;
       Frame.color_path Sample.frame_a].
Proof.
  apply (draw_matches_reopens_files Sample.frame_a Sample.frame_b
           Sample.seven_matches 5 Sample.fresh Sample.after_drawing
           (Sample.composite (firstn 5 Sample.seven_matches))).
  reflexivity.
Defined.

(** X18. Whatever the limit, the matches [draw_matches] draws are a prefix
    of the given list: the first ones, in their order, and none that was
    not given. *)
Theorem draw_matches_links_prefix (img_1 img_2 : Frame.t)
    (matches : list DMatch) (limit : Z) (w w' : Py.world) (img : cv2.Mat) :
  Matcher.draw_matches img_1 img_2 matches limit w = (Py.Return img, w') ->
  exists rest, matches = (cv2.links img ++ rest)%list.
Proof.
  intros Hrun.
  destruct (draw_matches_returned img_1 img_2 matches limit w w' img Hrun)
    as (width & height & _ & _ & ->).
  cbn [cv2.links]; unfold Py.slice_to.
  eexists; symmetry; apply firstn_skipn.
Qed.

Lemma draw_matches_links_prefix_witness :
  exists rest,
    Sample.seven_matches
    = (cv2.links (Sample.composite (firstn 5 Sample.seven_matches)) ++ rest)%list.
Proof.
  apply (draw_matches_links_prefix Sample.frame_a Sample.frame_b
           Sample.seven_matches 5 Sample.fresh Sample.after_drawing
           (Sample.composite (firstn 5 Sample.seven_matches))).
  reflexivity.
Defined.

(** X19. With a limit that is not negative, [draw_matches] draws the
    first [limit] matches, all of them when there are fewer: never more
    than [limit], and none with [limit = 0]. *)
Theorem draw_matches_limit_count (img_1 img_2 : Frame.t)
    (matches : list DMatch) (limit : Z) (w w' : Py.world) (img : cv2.Mat) :
  (0 <= limit)%Z ->
  Matcher.draw_matches img_1 img_2 matches limit w = (Py.Return img, w') ->
  cv2.links img = firstn (Z.to_nat limit) matches /\
  List.length (cv2.links img) = Nat.min (Z.to_nat limit) (List.length matches).
Proof.
  intros Hpos Hrun.
  rewrite (draw_matches_limit img_1 img_2 matches limit w w' img Hpos Hrun).
  split; [reflexivity | apply length_firstn].
Qed.

Lemma draw_matches_limit_count_witness :
  cv2.links (Sample.composite (firstn 5 Sample.seven_matches))
  = firstn (Z.to_nat 5) Sample.seven_matches /\
  List.length (cv2.links (Sample.composite (firstn 5 Sample.seven_matches)))
  = Nat.min (Z.to_nat 5) (List.length Sample.seven_matches).
Proof.
  apply (draw_matches_limit_count Sample.frame_a Sample.frame_b
           Sample.seven_matches 5 Sample.fresh Sample.after_drawing
           (Sample.composite (firstn 5 Sample.seven_matches)));
    [lia | reflexivity].
Defined.

(** X20. A negative limit does not mean "no limit": [draw_matches] then
    leaves out the last [-limit] matches, and draws nothing when there are
    no more than that. *)
Theorem draw_matches_negative_limit (img_1 img_2 : Frame.t)
    (matches : list DMatch) (limit : Z) (w w' : Py.world) (img : cv2.Mat) :
  (limit < 0)%Z ->
  Matcher.draw_matches img_1 img_2 matches limit w = (Py.Return img, w') ->
  cv2.links img = firstn (List.length matches - Z.to_nat (- limit)) matches /\
  List.length (cv2.links img) = (List.length matches - Z.to_nat (- limit))%nat.
Proof.
  intros Hneg Hrun.
  destruct (draw_matches_returned img_1 img_2 matches limit w w' img Hrun)
    as (width & height & _ & _ & ->).
  cbn [cv2.links]; unfold Py.slice_to.
  destruct (limit <? 0)%Z eqn:Hlt; [|lia].
  replace (Z.to_nat (Z.max 0 (limit + Z.of_nat (List.length matches))))
    with (List.length matches - Z.to_nat (- limit))%nat by lia.
  split; [reflexivity|].
  rewrite length_firstn; lia.
Qed.

Lemma draw_matches_negative_limit_witness :
  cv2.links (Sample.composite (firstn 4 Sample.seven_matches))
  = firstn (List.length Sample.seven_matches - Z.to_nat (- (-3)))
           Sample.seven_matches /\
  List.length (cv2.links (Sample.composite (firstn 4 Sample.seven_matches)))
  = (List.length Sample.seven_matches - Z.to_nat (- (-3)))%nat.
Proof.
  apply (draw_matches_negative_limit Sample.frame_a Sample.frame_b
           Sample.seven_matches (-3) Sample.fresh Sample.after_drawing
           (Sample.composite (firstn 4 Sample.seven_matches)));
    [lia | reflexivity].
Defined.
